(** * DeterministicRuleEngine v1.0.0-alpha: a shallow embedding

    The engine of [engine_v1_0_0_alpha.py] is embedded function by function.
    Python strings are lists of code points, JSON/YAML trees are the
    inductive [value], and every Python exception is an explicit [Raise] in
    the [result] monad.  What the interpreter and the [re] module supply
    (Unicode lower-casing, the regular-expression matcher, [repr], the
    parser behind [int(str)], the digit limit of [str(int)]) is the interface
    [PyRuntime]; the engine is verified for every implementation of that
    interface.  Dictionaries keep insertion order, as the language has it;
    the one unordered container, the set of the deduplicator, is the
    interface [SeenSet]. *)

From Stdlib Require Import ZArith NArith String Ascii DecimalString.
From Stdlib Require Import Floats.SpecFloat Sorting.Sorted.
From stdpp Require Import base tactics option list gmap.

Local Open Scope N_scope.

(** ** Python strings *)

Abbreviation pystr := (list N).

(** An ASCII literal as a Python string. *)
Definition py (s : string) : pystr := N_of_ascii <$> list_ascii_of_string s.

(** [str.isspace] for one code point; [\s] of [re] on [str] patterns is the
    same set. *)
Definition isspace (c : N) : bool :=
  ((0x9 <=? c) && (c <=? 0xD)) || ((0x1C <=? c) && (c <=? 0x20))
  || (c =? 0x85) || (c =? 0xA0) || (c =? 0x1680)
  || ((0x2000 <=? c) && (c <=? 0x200A))
  || (c =? 0x2028) || (c =? 0x2029) || (c =? 0x202F) || (c =? 0x205F)
  || (c =? 0x3000).

Fixpoint lstrip (s : pystr) : pystr :=
  match s with
  | c :: s' => if isspace c then lstrip s' else s
  | [] => []
  end.

Definition rstrip (s : pystr) : pystr := reverse (lstrip (reverse s)).

(** [s.strip()] *)
Definition strip (s : pystr) : pystr := rstrip (lstrip s).

(** [re.sub(r"\s+", " ", s)]: [in_run] records that the previous code point
    was whitespace and has already been replaced. *)
Fixpoint sub_ws (in_run : bool) (s : pystr) : pystr :=
  match s with
  | [] => []
  | c :: s' =>
      if isspace c then (if in_run then sub_ws true s' else 0x20 :: sub_ws true s')
      else c :: sub_ws false s'
  end.

Fixpoint startswith (p s : pystr) : bool :=
  match p, s with
  | [], _ => true
  | a :: p', b :: s' => (a =? b) && startswith p' s'
  | _ :: _, [] => false
  end.

(** [s.find(p)], with [None] for -1. *)
Fixpoint str_find (p s : pystr) : option nat :=
  if startswith p s then Some 0%nat
  else match s with
       | [] => None
       | _ :: s' => S <$> str_find p s'
       end.

(** [p in s] *)
Definition str_in (p s : pystr) : bool := bool_decide (is_Some (str_find p s)).

(** [s.count(p)]: occurrences that do not overlap, scanning left to right;
    [skip] code points still belong to the occurrence just counted. *)
Fixpoint count_from (p s : pystr) (skip : nat) : nat :=
  match s with
  | [] => if bool_decide (p = []) then 1 else 0
  | _ :: s' =>
      match skip with
      | S k => count_from p s' k
      | O => if startswith p s then S (count_from p s' (length p - 1))
             else count_from p s' 0
      end
  end%nat.

Definition str_count (s p : pystr) : nat := count_from p s 0.

(** [s[a:b]] for indices that are not negative. *)
Definition slice (s : pystr) (a b : nat) : pystr := take (b - a) (drop a s).

(** [sep.join(xs)] *)
Fixpoint join (sep : pystr) (xs : list pystr) : pystr :=
  match xs with
  | [] => []
  | [x] => x
  | x :: xs' => x ++ sep ++ join sep xs'
  end.

(** The string ["\n"]. *)
Definition NEWLINE : pystr := [0xA].

(** The snippet [p] occurs in [s] as one uninterrupted run. *)
Definition substring (p s : pystr) : Prop := ∃ pre post, s = pre ++ p ++ post.

(** ** Exceptions *)

Inductive exn : Set :=
  | AttributeError | TypeError | ValueError | OverflowError | IndexError | ReError.

Inductive result (A : Type) : Type :=
  | Ok (a : A)
  | Raise (e : exn).
Arguments Ok {A} a.
Arguments Raise {A} e.

Definition bind {A B} (m : result A) (f : A → result B) : result B :=
  match m with
  | Ok a => f a
  | Raise e => Raise e
  end.

Notation "'let*' x ':=' m 'in' k" := (bind m (λ x, k))
  (at level 10, x name, m at level 100, k at level 200, only parsing).

(** Short-circuit [a or b] on computations that may raise. *)
Definition or_else (a b : result bool) : result bool :=
  let* x := a in if x then Ok true else b.

(** A loop that appends what each iteration produces. *)
Fixpoint for_each {A B} (body : A → result (list B)) (l : list A) (acc : list B)
  : result (list B) :=
  match l with
  | [] => Ok acc
  | a :: l' => let* new := body a in for_each body l' (acc ++ new)
  end.

(** ** JSON and YAML trees *)

#[local] Unset Elimination Schemes.
Inductive value : Type :=
  | VNone
  | VBool (b : bool)
  | VInt (z : Z)
  | VFloat (f : spec_float)
  | VStr (s : pystr)
  | VList (l : list value)
  | VDict (d : list (pystr * value)).
#[local] Set Elimination Schemes.

(** Truth value of an object, as [or], [if] and [not] see it. *)
Definition truthy (v : value) : bool :=
  match v with
  | VNone => false
  | VBool b => b
  | VInt z => negb (z =? 0)%Z
  | VFloat (S754_zero _) => false
  | VFloat _ => true
  | VStr s => negb (bool_decide (s = []))
  | VList l => match l with [] => false | _ => true end
  | VDict d => match d with [] => false | _ => true end
  end.

(** [v or d] *)
Definition py_or (v d : value) : value := if truthy v then v else d.

Fixpoint assoc {A} (k : pystr) (d : list (pystr * A)) : option A :=
  match d with
  | [] => None
  | (k', a) :: d' => if bool_decide (k = k') then Some a else assoc k d'
  end.

(** [v.get(key, default)]; only mappings have [get]. *)
Definition dict_get (v : value) (key : pystr) (default : value) : result value :=
  match v with
  | VDict d => Ok (match assoc key d with Some x => x | None => default end)
  | _ => Raise AttributeError
  end.

(** [for x in v]: a list yields its items, a mapping its keys, a string its
    code points; nothing else is iterable. *)
Definition py_iter (v : value) : result (list value) :=
  match v with
  | VList l => Ok l
  | VDict d => Ok ((λ kv, VStr kv.1) <$> d)
  | VStr s => Ok ((λ c, VStr [c]) <$> s)
  | _ => Raise TypeError
  end.

(** [v.items()] *)
Definition dict_items (v : value) : result (list (pystr * value)) :=
  match v with
  | VDict d => Ok d
  | _ => Raise AttributeError
  end.

(** [int(f)] of a float: truncation towards zero. *)
Definition int_of_float (f : spec_float) : result Z :=
  match f with
  | S754_zero _ => Ok 0%Z
  | S754_infinity _ => Raise OverflowError
  | S754_nan => Raise ValueError
  | S754_finite s m e =>
      let a := (if 0 <=? e then Z.pos m * 2 ^ e else Z.pos m / 2 ^ (- e))%Z in
      Ok (if s then - a else a)%Z
  end.

(** ** What the interpreter supplies *)

Class PyRuntime := {
  (** the Unicode full lower-case mapping of one code point *)
  unicode_lower : N → pystr;
  (** whether the capital sigma at an index stands at the end of a word *)
  final_sigma : pystr → nat → bool;
  (** [re.finditer(pattern, text, flags)]: the spans of all matches, left to
      right; raises when the pattern does not compile *)
  re_finditer : value → Z → pystr → result (list (nat * nat));
  (** [re.search(re.escape(keyword), text, re.IGNORECASE)]: the span of the
      first match *)
  re_search_escaped_ignorecase : pystr → pystr → option (nat * nat);
  (** [repr] of floats, lists and mappings; it raises on a list or mapping
      that holds an integer beyond the digit limit *)
  py_repr : value → result pystr;
  (** [sys.get_int_max_str_digits()]: the greatest number of decimal digits
      [str] writes for an integer, 4300 by default since CPython 3.11, and 0
      when there is no limit *)
  int_max_str_digits : Z;
  (** [int(s)] of a string, [None] when it is not an integer literal or has
      more digits than the limit *)
  int_of_str : pystr → option Z
}.

Section Engine.
Context {RT : PyRuntime}.

(** [s.lower()] *)
Definition str_lower (s : pystr) : pystr :=
  concat (imap (λ i c, if c =? 0x3A3
                       then (if final_sigma s i then [0x3C2] else [0x3C3])
                       else unicode_lower c) s).

(** Whether [z] has more decimal digits than [str] is willing to write. *)
Definition exceeds_str_digits (z : Z) : bool :=
  (0 <? int_max_str_digits)%Z && (10 ^ int_max_str_digits <=? Z.abs z)%Z.

(** [str(v)]; of an integer beyond the digit limit it raises [ValueError]. *)
Definition py_str (v : value) : result pystr :=
  match v with
  | VStr s => Ok s
  | VNone => Ok (py "None")
  | VBool true => Ok (py "True")
  | VBool false => Ok (py "False")
  | VInt z => if exceeds_str_digits z then Raise ValueError
              else Ok (py (NilEmpty.string_of_int (Z.to_int z)))
  | _ => py_repr v
  end.

(** [int(v)] *)
Definition py_int (v : value) : result Z :=
  match v with
  | VInt z => Ok z
  | VBool b => Ok (if b then 1 else 0)%Z
  | VFloat f => int_of_float f
  | VStr s => match int_of_str s with Some z => Ok z | None => Raise ValueError end
  | _ => Raise TypeError
  end.

(** ** Normalization (matching only) *)

Definition _FULLWIDTH_MAP : list (N * pystr) :=
  [ (0xFF1A, py ":"); (0xFF08, py "("); (0xFF09, py ")"); (0xFF0C, py ",");
    (0x3002, py "."); (0xFF1B, py ";"); (0x3010, py "["); (0x3011, py "]");
    (0xFF05, py "%"); (0xFF0B, py "+"); (0xFF0D, py "-"); (0xFF0F, py "/");
    (0xD7, [0xD7]) ].

Fixpoint translate_char (m : list (N * pystr)) (c : N) : pystr :=
  match m with
  | [] => [c]
  | (k, r) :: m' => if c =? k then r else translate_char m' c
  end.

Definition _to_halfwidth (s : pystr) : pystr :=
  concat (translate_char _FULLWIDTH_MAP <$> s).

Definition normalize_for_match (s : pystr) (cfg : value) : result pystr :=
  let* matching := dict_get cfg (py "matching") (VDict []) in
  let* norm_cfg := dict_get matching (py "normalization") (VDict []) in
  let* fw := dict_get norm_cfg (py "fullwidth_to_halfwidth") (VBool false) in
  let out := if truthy fw then _to_halfwidth s else s in
  let* cw := dict_get norm_cfg (py "collapse_whitespace") (VBool false) in
  let out := if truthy cw then strip (sub_ws false out) else out in
  let* lc := dict_get norm_cfg (py "lowercase_for_match") (VBool false) in
  let out := if truthy lc then str_lower out else out in
  Ok out.

Definition ascii_lower (c : N) : N :=
  if (0x41 <=? c) && (c <=? 0x5A) then c + 32 else c.

Definition normalize_for_dedup_key (snippet : pystr) : pystr :=
  ascii_lower <$> sub_ws false (strip snippet).

(** ** Data extraction *)

Record Line := mkLine {
  line_id : pystr;
  text : pystr;
  line_source_page : Z
}.

Record Block := mkBlock {
  block_id : pystr;
  block_type : pystr;
  text_raw : pystr;
  source_page : Z
}.

(** The body of the first loop of [load_block_extractor_output]. *)
Definition load_line (item : value) : result Line :=
  let* lid := dict_get item (py "line_id") (VStr []) in
  let* lid := py_str lid in
  let* txt := dict_get item (py "text") (VStr []) in
  let* txt := py_str txt in
  let* pg := dict_get item (py "source_page") (VInt 1) in
  let* n := py_int (py_or pg (VInt 1)) in
  Ok (mkLine lid txt n).

(** The body of its second loop. *)
Definition load_block (b : value) : result Block :=
  let* bid := dict_get b (py "block_id") (VStr []) in
  let* bid := py_str bid in
  let* bty := dict_get b (py "block_type") (VStr []) in
  let* bty := py_str bty in
  let* txt := dict_get b (py "text_raw") (VStr []) in
  let* txt := py_str txt in
  let* pg := dict_get b (py "source_page") (VInt 1) in
  let* n := py_int (py_or pg (VInt 1)) in
  Ok (mkBlock bid bty txt n).

Fixpoint load_all {A} (f : value → result A) (items : list value) : result (list A) :=
  match items with
  | [] => Ok []
  | x :: items' => let* a := f x in let* rest := load_all f items' in Ok (a :: rest)
  end.

Definition load_block_extractor_output (data : value)
  : result (list Line * list Block) :=
  let* rl := dict_get data (py "raw_text_lines") (VList []) in
  let* items := py_iter (py_or rl (VList [])) in
  let* raw_lines := load_all load_line items in
  let* bl := dict_get data (py "blocks") (VList []) in
  let* bitems := py_iter (py_or bl (VList [])) in
  let* blocks := load_all load_block bitems in
  Ok (raw_lines, blocks).

(** ** Scopes *)

Record Scopes := mkScopes {
  global_text_raw : pystr;
  page_text_raw : list (Z * pystr);
  block_text_raw : list (pystr * pystr);
  line_text_by_id : list (pystr * pystr);
  blocks : list Block;
  blocks_by_type : list (pystr * list Block)
}.

(** A [dict] keeps its keys in insertion order; assigning to a key that is
    present replaces the value in place. *)
Fixpoint dict_set {K A} `{EqDecision K} (k : K) (a : A) (d : list (K * A))
  : list (K * A) :=
  match d with
  | [] => [(k, a)]
  | (k', a') :: d' => if decide (k = k') then (k, a) :: d'
                      else (k', a') :: dict_set k a d'
  end.

Fixpoint dict_lookup {K A} `{EqDecision K} (k : K) (d : list (K * A)) : option A :=
  match d with
  | [] => None
  | (k', a) :: d' => if decide (k = k') then Some a else dict_lookup k d'
  end.

(** One iteration of the loop that fills [page_text_raw]. *)
Definition page_text_step (d : list (Z * pystr)) (b : Block) : list (Z * pystr) :=
  let d := match dict_lookup (source_page b) d with
           | None => dict_set (source_page b) [] d
           | Some _ => d
           end in
  if bool_decide (text_raw b = []) then d
  else dict_set (source_page b)
         (default [] (dict_lookup (source_page b) d) ++ text_raw b ++ NEWLINE)
         d.

(** [blocks_by_type.setdefault(b.block_type, []).append(b)] *)
Definition by_type_step (d : list (pystr * list Block)) (b : Block)
  : list (pystr * list Block) :=
  dict_set (block_type b) (default [] (dict_lookup (block_type b) d) ++ [b]) d.

Definition build_scopes (lines : list Line) (blocks : list Block) : Scopes :=
  {| global_text_raw :=
       join (NEWLINE)
            (text_raw <$> filter (λ b, text_raw b ≠ []) blocks);
     page_text_raw := foldl page_text_step [] blocks;
     block_text_raw := foldl (λ d b, dict_set (block_id b) (text_raw b) d) [] blocks;
     line_text_by_id := foldl (λ d ln, dict_set (line_id ln) (text ln) d) [] lines;
     blocks := blocks;
     blocks_by_type := foldl by_type_step [] blocks |}.

(** ** Dictionary loading *)

Record RegexPattern := mkRegexPattern {
  name : pystr;
  pattern : value;
  flags : Z
}.

Fixpoint fold_result {A B} (f : B → A → result B) (b : B) (l : list A) : result B :=
  match l with
  | [] => Ok b
  | a :: l' => let* b' := f b a in fold_result f b' l'
  end.

(** [re.IGNORECASE], [re.MULTILINE] and [re.DOTALL]; other tokens add nothing. *)
Definition flag_bit (flg : value) : Z :=
  match flg with
  | VStr s =>
      if bool_decide (s = py "IGNORECASE") then 2
      else if bool_decide (s = py "MULTILINE") then 8
      else if bool_decide (s = py "DOTALL") then 16
      else 0
  | _ => 0
  end%Z.

(** One iteration of the loop of [compile_regexes]. *)
Definition compile_step (out : list (pystr * RegexPattern)) (entry : pystr * value)
  : result (list (pystr * RegexPattern)) :=
  let '(name, meta) := entry in
  let* pat := dict_get meta (py "pattern") VNone in
  if truthy pat then
    let* fl := dict_get meta (py "flags") (VList []) in
    let* flags_list := py_iter (py_or fl (VList [])) in
    let flags := foldl (λ acc flg, Z.lor acc (flag_bit flg)) 0%Z flags_list in
    Ok (dict_set name (mkRegexPattern name pat flags) out)
  else Ok out.

Definition compile_regexes (cfg : value) : result (list (pystr * RegexPattern)) :=
  let* r := dict_get cfg (py "regex") (VDict []) in
  let* entries := dict_items (py_or r (VDict [])) in
  fold_result compile_step [] entries.

Definition get_intent_keywords (cfg : value) (intent_name : pystr) : result (list pystr) :=
  let* i := dict_get cfg (py "intents") (VDict []) in
  let* e := dict_get (py_or i (VDict [])) intent_name (VDict []) in
  let* k := dict_get (py_or e (VDict [])) (py "keywords") (VList []) in
  let* kws := py_iter (py_or k (VList [])) in
  let* strs := load_all py_str kws in
  Ok (filter (λ s, strip s ≠ []) strs).

(** ** Matching utilities *)

Fixpoint intent_match_any (text_norm : pystr) (keywords : list pystr) (cfg : value)
  : result bool :=
  match keywords with
  | [] => Ok false
  | kw :: keywords' =>
      let* kw_norm := normalize_for_match kw cfg in
      if negb (bool_decide (kw_norm = [])) && str_in kw_norm text_norm then Ok true
      else intent_match_any text_norm keywords' cfg
  end.

Definition regex_find_any (text : pystr) (rx : RegexPattern) : result (list (nat * nat)) :=
  re_finditer (pattern rx) (flags rx) text.

(** An [Optional[str]] in a condition: [None] and the empty string are false. *)
Definition opt_truthy (o : option pystr) : bool :=
  match o with
  | Some (_ :: _) => true
  | _ => false
  end.

Definition pick_evidence_snippet_for_keyword (original_text keyword : pystr)
  (cfg : value) : option pystr :=
  if bool_decide (original_text = []) then None
  else match str_find keyword original_text with
       | Some _ => Some keyword
       | None =>
           match re_search_escaped_ignorecase keyword original_text with
           | Some (a, b) => Some (slice original_text a b)
           | None => None
           end
       end.

Definition pick_evidence_snippet_for_regex (original_text : pystr) (rx : RegexPattern)
  : result (option pystr) :=
  if bool_decide (original_text = []) then Ok None
  else
    let* ms := regex_find_any original_text rx in
    match ms with
    | [] => Ok None
    | (a, b) :: _ => Ok (Some (slice original_text a b))
    end.

(** ** Risk objects *)

Definition DETECTION_METHOD : pystr := py "rule_guardrail".

Record Evidence := mkEvidence {
  ev_block_id : pystr;
  raw_snippet : pystr
}.

Record Risk := mkRisk {
  risk_type : pystr;
  detection_method : pystr;
  evidence : Evidence;
  risk_description : pystr;
  risk_logic : pystr
}.

Definition make_risk (risk_type block_id raw_snippet risk_description risk_logic : pystr)
  : Risk :=
  mkRisk risk_type DETECTION_METHOD (mkEvidence block_id raw_snippet)
         risk_description risk_logic.

Definition NA : pystr := py "N/A".

(** ** Rule execution: missing fields *)

(** The closure [has_block_type] of [rule_missing]. *)
Definition has_block_type (scopes : Scopes) (bt : pystr) : bool :=
  bool_decide (0 < length (default [] (dict_lookup bt (blocks_by_type scopes))))%nat.

(** Its closure [has_intent]. *)
Definition has_intent (global_norm : pystr) (cfg : value) (intent : pystr) : result bool :=
  let* kws := get_intent_keywords cfg intent in
  intent_match_any global_norm kws cfg.

(** Its closure [has_regex]. *)
Definition has_regex (scopes : Scopes) (regexes : list (pystr * RegexPattern))
  (rname : pystr) : result bool :=
  match dict_lookup rname regexes with
  | None => Ok false
  | Some rx =>
      let* ms := regex_find_any (global_text_raw scopes) rx in
      Ok (bool_decide (0 < length ms)%nat)
  end.

(** The loop over the title blocks: some title has more than two code points
    once stripped. *)
Definition title_ok (scopes : Scopes) : bool :=
  existsb (λ b, bool_decide (2 < length (strip (text_raw b)))%nat)
          (default [] (dict_lookup (py "title") (blocks_by_type scopes))).

Definition risk_missing_net_content : Risk :=
  make_risk (py "missing_net_content") NA NA
    (py "Net content field not observed")
    (py "No net content intent keywords or value patterns were detected in the extracted text").

Definition risk_missing_product_name : Risk :=
  make_risk (py "missing_product_name") NA NA
    (py "Product name (title) not observed")
    (py "No valid title block was detected or title content is extremely short").

Definition risk_missing_ingredient_list : Risk :=
  make_risk (py "missing_ingredient_list") NA NA
    (py "Ingredient list not observed")
    (py "No ingredient intent keywords or ingredient block was detected").

Definition risk_missing_manufacturer_info : Risk :=
  make_risk (py "missing_manufacturer_info") NA NA
    (py "Producer/manufacturer information not observed")
    (py "No producer intent keywords or producer block was detected").

Definition risk_missing_date_shelf_life : Risk :=
  make_risk (py "missing_date_shelf_life") NA NA
    (py "Date or shelf-life information not observed")
    (py "No date/shelf-life intent keywords or date patterns were detected").

Definition risk_missing_standard_code : Risk :=
  make_risk (py "missing_standard_code") NA NA
    (py "Standard code not observed")
    (py "No standard label intent keywords, standard block, or standard code pattern was detected").

Definition risk_missing_production_license : Risk :=
  make_risk (py "missing_production_license") NA NA
    (py "Production license (SC) not observed")
    (py "No license intent keywords, license block, or SC code pattern was detected").

(** [risks.append(r)] unless the signal was observed. *)
Definition append_unless (observed : bool) (r : Risk) (risks : list Risk) : list Risk :=
  if observed then risks else risks ++ [r].

Definition rule_missing (scopes : Scopes) (cfg : value)
  (regexes : list (pystr * RegexPattern)) : result (list Risk) :=
  let risks := [] in
  let* global_norm := normalize_for_match (global_text_raw scopes) cfg in
  let has_intent := has_intent global_norm cfg in
  let has_regex := has_regex scopes regexes in
  let has_block_type := has_block_type scopes in
  let* net :=
    or_else (has_intent (py "net_content_intent"))
      (or_else (has_regex (py "net_content_value")) (has_regex (py "net_content_multi"))) in
  let risks := append_unless net risk_missing_net_content risks in
  let risks := append_unless (title_ok scopes) risk_missing_product_name risks in
  let* ingredient :=
    or_else (has_intent (py "ingredient_intent")) (Ok (has_block_type (py "ingredient"))) in
  let risks := append_unless ingredient risk_missing_ingredient_list risks in
  let* producer :=
    or_else (has_intent (py "producer_intent")) (Ok (has_block_type (py "producer"))) in
  let risks := append_unless producer risk_missing_manufacturer_info risks in
  let* date :=
    or_else (has_intent (py "date_shelf_life_intent"))
      (or_else (Ok (has_block_type (py "date_shelf_life")))
         (or_else (has_regex (py "date_ymd_numeric")) (has_regex (py "date_ymd_cn")))) in
  let risks := append_unless date risk_missing_date_shelf_life risks in
  let* standard :=
    or_else (has_intent (py "standard_label_intent"))
      (or_else (Ok (has_block_type (py "standard"))) (has_regex (py "standard_code"))) in
  let risks := append_unless standard risk_missing_standard_code risks in
  let* license :=
    or_else (has_intent (py "license_label_intent"))
      (or_else (Ok (has_block_type (py "license"))) (has_regex (py "sc_code"))) in
  let risks := append_unless license risk_missing_production_license risks in
  Ok risks.

(** ** Rule execution: format consistency *)

(** The closure [find_block_containing_snippet] of [rule_format]. *)
Fixpoint find_block_containing_snippet (blocks : list Block) (snippet : pystr) (page : Z)
  : option pystr :=
  match blocks with
  | [] => None
  | b :: blocks' =>
      if bool_decide (source_page b = page) && negb (bool_decide (text_raw b = []))
         && str_in snippet (text_raw b)
      then Some (block_id b)
      else find_block_containing_snippet blocks' snippet page
  end.

(** [o or "N/A"] *)
Definition or_NA (o : option pystr) : pystr :=
  if opt_truthy o then default [] o else NA.

(** [bool(rx and regex_find_any(raw, rx))] *)
Definition has_match (rx : option RegexPattern) (raw : pystr) : result bool :=
  match rx with
  | None => Ok false
  | Some rx =>
      let* ms := regex_find_any raw rx in
      Ok (match ms with [] => false | _ => true end)
  end.

(** One of the two casing checks of the first loop: [rx_a] and [rx_b] are the
    two variants, [rx_ev] the one the evidence is taken from. *)
Definition unit_case_check (scopes : Scopes) (rx_a rx_b rx_ev : option RegexPattern)
  (fallback logic : pystr) (page : Z) (raw : pystr) : result (list Risk) :=
  let* has_a := has_match rx_a raw in
  let* has_b := has_match rx_b raw in
  if has_a && has_b then
    let* snippet := match rx_ev with
                    | Some rx => pick_evidence_snippet_for_regex raw rx
                    | None => Ok (Some fallback)
                    end in
    if opt_truthy snippet then
      let snippet := default [] snippet in
      let bid := or_NA (find_block_containing_snippet (blocks scopes) snippet page) in
      Ok [make_risk (py "format_unit_case_inconsistent") bid snippet
            (py "Unit casing appears inconsistent within the same page scope") logic]
    else Ok []
  else Ok [].

(** The body of the first loop (7.2.1): mL variants, then L against l. *)
Definition format_unit_case_page (scopes : Scopes)
  (rx_ml_upper rx_ml_mixed rx_l_upper rx_l_lower : option RegexPattern)
  (entry : Z * pystr) : result (list Risk) :=
  let '(page, raw) := entry in
  let* ml := unit_case_check scopes rx_ml_upper rx_ml_mixed rx_ml_upper (py "ML")
    (py "Multiple casing variants for the same unit were detected in the same scope")
    page raw in
  let* l := unit_case_check scopes rx_l_upper rx_l_lower rx_l_lower (py "l")
    (py "Both uppercase and lowercase variants of the same unit were detected in the same scope")
    page raw in
  Ok (ml ++ l).

(** The inner loop over the keywords: the first snippet that is not empty. *)
Fixpoint first_keyword_snippet (raw : pystr) (kws : list pystr) (cfg : value)
  : option pystr :=
  match kws with
  | [] => None
  | kw :: kws' =>
      let sn := pick_evidence_snippet_for_keyword raw kw cfg in
      if opt_truthy sn then sn else first_keyword_snippet raw kws' cfg
  end.

(** What the three label rules append: the keyword snippet, or the fixed
    token when none is found, attributed to the first block of the page that
    contains it. *)
Definition label_risk (scopes : Scopes) (cfg : value) (kws : list pystr)
  (fallback rtype description logic : pystr) (page : Z) (raw : pystr) : Risk :=
  let snippet := first_keyword_snippet raw kws cfg in
  let snippet := if opt_truthy snippet then default [] snippet else fallback in
  let bid := or_NA (find_block_containing_snippet (blocks scopes) snippet page) in
  make_risk rtype bid snippet description logic.

Definition FALLBACK_NET : pystr := [0x51C0; 0x542B; 0x91CF].
Definition FALLBACK_STD : pystr := [0x6267; 0x884C; 0x6807; 0x51C6].
Definition FALLBACK_STRONG : pystr := [0x53D7; 0x59D4; 0x6258; 0x751F; 0x4EA7].

(** The body of the second loop (7.2.2). *)
Definition format_net_content_page (scopes : Scopes) (cfg : value)
  (kws_net : list pystr) (rx_net_value rx_net_multi : option RegexPattern)
  (entry : Z * pystr) : result (list Risk) :=
  let '(page, raw) := entry in
  let* raw_norm := normalize_for_match raw cfg in
  let* has_label := intent_match_any raw_norm kws_net cfg in
  let* has_value := has_match rx_net_value raw in
  let* has_multi := has_match rx_net_multi raw in
  if has_label && negb (has_value || has_multi) then
    Ok [label_risk scopes cfg kws_net FALLBACK_NET
          (py "format_net_content_pattern_unusual")
          (py "Net content label observed but value pattern not detected")
          (py "Net content-related label keyword was detected, but no numeric value+unit pattern was matched in the same scope")
          page raw]
  else Ok [].

(** The body of the third loop (7.2.3). *)
Definition format_standard_code_page (scopes : Scopes) (cfg : value)
  (kws_std : list pystr) (rx_std : option RegexPattern)
  (entry : Z * pystr) : result (list Risk) :=
  let '(page, raw) := entry in
  let* raw_norm := normalize_for_match raw cfg in
  let* has_label := intent_match_any raw_norm kws_std cfg in
  let* has_code := has_match rx_std raw in
  if has_label && negb has_code then
    Ok [label_risk scopes cfg kws_std FALLBACK_STD
          (py "format_standard_code_pattern_unusual")
          (py "Standard label observed but standard code pattern not detected")
          (py "Standard-related label keyword was detected, but no standard-code-like token was matched in the same scope")
          page raw]
  else Ok [].

(** The body of the fourth loop (7.2.4). *)
Definition format_license_code_page (scopes : Scopes) (cfg : value)
  (kws_lic : list pystr) (rx_sc : option RegexPattern)
  (entry : Z * pystr) : result (list Risk) :=
  let '(page, raw) := entry in
  let* raw_norm := normalize_for_match raw cfg in
  let* has_label := intent_match_any raw_norm kws_lic cfg in
  let* has_sc := has_match rx_sc raw in
  if has_label && negb has_sc then
    Ok [label_risk scopes cfg kws_lic (py "SC")
          (py "format_license_code_pattern_unusual")
          (py "License label observed but SC code pattern not detected")
          (py "License-related label keyword was detected, but no SC-code-like token was matched in the same scope")
          page raw]
  else Ok [].

Definition rule_format (scopes : Scopes) (cfg : value)
  (regexes : list (pystr * RegexPattern)) : result (list Risk) :=
  let risks := [] in
  let page_text_raw := page_text_raw scopes in
  let rx_ml_upper := dict_lookup (py "unit_ml_upper") regexes in
  let rx_ml_mixed := dict_lookup (py "unit_ml_mixed") regexes in
  let rx_l_upper := dict_lookup (py "unit_l_upper") regexes in
  let rx_l_lower := dict_lookup (py "unit_l_lower") regexes in
  let* risks :=
    for_each (format_unit_case_page scopes rx_ml_upper rx_ml_mixed rx_l_upper rx_l_lower)
      page_text_raw risks in
  let* kws_net := get_intent_keywords cfg (py "net_content_intent") in
  let rx_net_value := dict_lookup (py "net_content_value") regexes in
  let rx_net_multi := dict_lookup (py "net_content_multi") regexes in
  let* risks :=
    for_each (format_net_content_page scopes cfg kws_net rx_net_value rx_net_multi)
      page_text_raw risks in
  let* kws_std := get_intent_keywords cfg (py "standard_label_intent") in
  let rx_std := dict_lookup (py "standard_code") regexes in
  let* risks :=
    for_each (format_standard_code_page scopes cfg kws_std rx_std) page_text_raw risks in
  let* kws_lic := get_intent_keywords cfg (py "license_label_intent") in
  let rx_sc := dict_lookup (py "sc_code") regexes in
  let* risks :=
    for_each (format_license_code_page scopes cfg kws_lic rx_sc) page_text_raw risks in
  Ok risks.

(** ** Rule execution: relationship consistency *)

(** The inner loop of [pick_first_keyword_evidence_in_blocks]. *)
Fixpoint pick_first_keyword_evidence_in_blocks (blocks : list Block) (keywords : list pystr)
  (cfg : value) : option pystr * option pystr :=
  match blocks with
  | [] => (None, None)
  | b :: blocks' =>
      if bool_decide (text_raw b = [])
      then pick_first_keyword_evidence_in_blocks blocks' keywords cfg
      else
        let sn := first_keyword_snippet (text_raw b) keywords cfg in
        if opt_truthy sn then (sn, Some (block_id b))
        else pick_first_keyword_evidence_in_blocks blocks' keywords cfg
  end.

(** [weak_count]: the occurrences of every weak keyword, summed. *)
Fixpoint count_weak (global_norm : pystr) (kws_weak : list pystr) (cfg : value)
  (weak_count : nat) : result nat :=
  match kws_weak with
  | [] => Ok weak_count
  | kw :: kws' =>
      let* kw_norm := normalize_for_match kw cfg in
      count_weak global_norm kws' cfg
        (if bool_decide (kw_norm = []) then weak_count
         else weak_count + str_count global_norm kw_norm)%nat
  end.

(** [contains_weak]: the loop stops at the first keyword found. *)
Fixpoint contains_weak (b_norm : pystr) (kws_weak : list pystr) (cfg : value)
  : result bool :=
  match kws_weak with
  | [] => Ok false
  | kw :: kws' =>
      let* kw_norm := normalize_for_match kw cfg in
      if str_in kw_norm b_norm then Ok true else contains_weak b_norm kws' cfg
  end.

(** [hits]: the producer keywords found in the block. *)
Fixpoint producer_hits (b_norm : pystr) (kws_producer : list pystr) (cfg : value)
  (hits : Z) : result Z :=
  match kws_producer with
  | [] => Ok hits
  | kwp :: kws' =>
      let* kwp_norm := normalize_for_match kwp cfg in
      producer_hits b_norm kws' cfg
        (if negb (bool_decide (kwp_norm = [])) && str_in kwp_norm b_norm
         then hits + 1 else hits)%Z
  end.

Definition risk_ambiguous (b : Block) (snippet : pystr) : Risk :=
  make_risk (py "entrusted_context_ambiguous") (block_id b) snippet
    (py "Ambiguous entrust-production wording observed in producer context")
    (py "Weak entrust keywords were detected in a producer-context block, while no principal-party keywords were detected; this is treated as an ambiguous relationship signal").

(** The loop over the blocks of the weak trigger; it stops at the first block
    that yields a finding. *)
Fixpoint weak_scan (blocks : list Block) (kws_weak kws_producer : list pystr)
  (cfg : value) (prod_min : Z) (risks : list Risk) : result (list Risk) :=
  match blocks with
  | [] => Ok risks
  | b :: blocks' =>
      let* b_norm := normalize_for_match (text_raw b) cfg in
      let* has_weak := contains_weak b_norm kws_weak cfg in
      if has_weak then
        let* hits := producer_hits b_norm kws_producer cfg 0 in
        if bool_decide (prod_min ≤ hits)%Z then
          let snippet := first_keyword_snippet (text_raw b) kws_weak cfg in
          let* snippet :=
            if opt_truthy snippet then Ok (default [] snippet)
            else match kws_weak with
                 | kw0 :: _ => Ok kw0
                 | [] => Raise IndexError
                 end in
          Ok (risks ++ [risk_ambiguous b snippet])
        else weak_scan blocks' kws_weak kws_producer cfg prod_min risks
      else weak_scan blocks' kws_weak kws_producer cfg prod_min risks
  end.

Definition risk_incomplete (bid snippet : pystr) : Risk :=
  make_risk (py "incomplete_entrust_relationship") bid snippet
    (py "Entrust-production context observed but principal party not observed")
    (py "Strong entrust-production keywords were detected, but no principal-party keywords were detected in the extracted text").

Definition rule_relationship (scopes : Scopes) (cfg : value)
  (regexes : list (pystr * RegexPattern)) : result (list Risk) :=
  let risks := [] in
  let blocks := blocks scopes in
  let* global_norm := normalize_for_match (global_text_raw scopes) cfg in
  let* kws_principal := get_intent_keywords cfg (py "principal_party_intent") in
  let* kws_strong := get_intent_keywords cfg (py "entrusted_party_strong_intent") in
  let* kws_weak := get_intent_keywords cfg (py "entrusted_party_weak_intent") in
  let* kws_producer := get_intent_keywords cfg (py "producer_intent") in
  let* has_principal := intent_match_any global_norm kws_principal cfg in
  let* has_strong := intent_match_any global_norm kws_strong cfg in
  if has_strong && negb has_principal then
    let '(snippet, bid) := pick_first_keyword_evidence_in_blocks blocks kws_strong cfg in
    let snippet := match kws_strong with
                   | kw0 :: _ => if opt_truthy snippet then default [] snippet else kw0
                   | [] => FALLBACK_STRONG
                   end in
    let bid := or_NA bid in
    Ok (risks ++ [risk_incomplete bid snippet])
  else if negb has_strong && negb has_principal then
    let* t := dict_get cfg (py "thresholds") (VDict []) in
    let thresholds := py_or t (VDict []) in
    let* wm := dict_get thresholds (py "entrust_weak_trigger_max_count") (VInt 1) in
    let* weak_max := py_int (py_or wm (VInt 1)) in
    let* pm := dict_get thresholds
                 (py "producer_context_keyword_min_hits_for_weak_entrust") (VInt 1) in
    let* prod_min := py_int (py_or pm (VInt 1)) in
    let* weak_count := count_weak global_norm kws_weak cfg 0 in
    if bool_decide (0 < weak_count)%nat && bool_decide (Z.of_nat weak_count ≤ weak_max)%Z
    then weak_scan blocks kws_weak kws_producer cfg prod_min risks
    else Ok risks
  else Ok risks.

(** ** Deduplication *)

Definition SEPARATOR : pystr := py "||".

(** The key computed for one finding in the loop of [deduplicate]. *)
Definition dedup_key (r : Risk) : pystr :=
  let rt := risk_type r in
  let sn := raw_snippet (evidence r) in
  if bool_decide (sn = NA) then rt
  else rt ++ SEPARATOR ++ normalize_for_dedup_key sn.

Fixpoint dedup_loop (risks : list Risk) (seen : gset pystr) (out : list Risk)
  : list Risk :=
  match risks with
  | [] => out
  | r :: risks' =>
      let key := dedup_key r in
      if bool_decide (key ∈ seen) then dedup_loop risks' seen out
      else dedup_loop risks' ({[key]} ∪ seen) (out ++ [r])
  end.

Definition deduplicate (risks : list Risk) : list Risk := dedup_loop risks ∅ [].




(** ** Engine *)

Record EngineOutput := mkEngineOutput {
  system_version : pystr;
  module_name : pystr;
  module_version : pystr;
  spec_version : pystr;
  dict_version : pystr;
  schema_version : pystr;
  out_detection_method : pystr;
  risk_list : list Risk
}.

Definition SYSTEM_VERSION : pystr := py "v1.0.0-alpha".
Definition MODULE_NAME : pystr := py "DeterministicRuleEngine".
Definition MODULE_VERSION : pystr := py "v1.0.0-alpha".
Definition SPEC_VERSION : pystr := py "v1.0.0-alpha".
Definition SCHEMA_VERSION : pystr := py "draft-2020-12".

Definition run_engine (block_extractor_json patterns_cfg : value) : result EngineOutput :=
  let* loaded := load_block_extractor_output block_extractor_json in
  let '(lines, blocks) := loaded in
  let scopes := build_scopes lines blocks in
  let* regexes := compile_regexes patterns_cfg in
  let risks := [] in
  let* missing := rule_missing scopes patterns_cfg regexes in
  let risks := risks ++ missing in
  let* format := rule_format scopes patterns_cfg regexes in
  let risks := risks ++ format in
  let* relationship := rule_relationship scopes patterns_cfg regexes in
  let risks := risks ++ relationship in
  let risks := deduplicate risks in
  let* dv := dict_get patterns_cfg (py "dict_version") (VStr (py "v1.0.0-alpha")) in
  let* dv := py_str dv in
  Ok (mkEngineOutput SYSTEM_VERSION MODULE_NAME MODULE_VERSION SPEC_VERSION
        dv SCHEMA_VERSION DETECTION_METHOD risks).


End Engine.

(** ** A reference runtime for the examples

    [ascii_runtime] implements the interface on a fragment where CPython's
    behaviour is plain: letters are lower-cased in ASCII only (every other
    code point is its own lower case, which is right for caseless scripts
    such as CJK), [int] parses optionally signed ASCII decimal digits, and
    the matcher knows the anchor ["^"] without flags and patterns free of
    metacharacters.  It rejects every other pattern, prints every [repr] as
    the empty string and has CPython's default digit limit; the examples
    below stay inside the fragment. *)

Definition is_meta (c : N) : bool :=
  bool_decide (c ∈ py ".^$*+?{}[]\|()").

(** The spans of the occurrences of the literal [p], scanning from [pos]. *)
Fixpoint literal_spans (p s : pystr) (pos skip : nat) : list (nat * nat) :=
  match s with
  | [] => []
  | _ :: s' =>
      match skip with
      | S k => literal_spans p s' (S pos) k
      | O => if startswith p s
             then (pos, pos + length p)%nat :: literal_spans p s' (S pos) (length p - 1)
             else literal_spans p s' (S pos) 0
      end
  end.

Definition ascii_finditer (pat : value) (flags : Z) (text : pystr)
  : result (list (nat * nat)) :=
  match pat with
  | VStr p =>
      if bool_decide (flags = 0%Z) then
        if bool_decide (p = py "^") then Ok [(0, 0)%nat]
        else if forallb (λ c, negb (is_meta c)) p && negb (bool_decide (p = []))
             then Ok (literal_spans p text 0 0)
             else Raise ReError
      else Raise ReError
  | _ => Raise TypeError
  end.

Definition ascii_search_ignorecase (keyword text : pystr) : option (nat * nat) :=
  (λ i, (i, i + length keyword)%nat) <$> str_find (ascii_lower <$> keyword) (ascii_lower <$> text).

Definition digit_value (c : N) : option Z :=
  if (0x30 <=? c) && (c <=? 0x39) then Some (Z.of_N (c - 0x30)) else None.

Fixpoint parse_digits (s : pystr) (acc : Z) : option Z :=
  match s with
  | [] => Some acc
  | c :: s' => d ← digit_value c; parse_digits s' (10 * acc + d)%Z
  end.

Definition ascii_int_of_str (s : pystr) : option Z :=
  match s with
  | [] => None
  | c :: s' =>
      if c =? 0x2D then (if bool_decide (s' = []) then None else Z.opp <$> parse_digits s' 0)
      else if c =? 0x2B then (if bool_decide (s' = []) then None else parse_digits s' 0)
      else parse_digits s 0
  end.

Definition ascii_runtime : PyRuntime :=
  {| unicode_lower := λ c, [ascii_lower c];
     final_sigma := λ _ _, false;
     re_finditer := ascii_finditer;
     re_search_escaped_ignorecase := ascii_search_ignorecase;
     py_repr := λ _, Ok [];
     int_max_str_digits := 4300;
     int_of_str := ascii_int_of_str |}.



(** ** Example documents and configurations *)

Definition obj (fields : list (string * value)) : value :=
  VDict ((λ kv, (py kv.1, kv.2)) <$> fields).

Definition str (s : string) : value := VStr (py s).

Local Open Scope string_scope.






(** A document with no block at all, and a configuration whose net-content
    pattern is the anchor. *)
Definition doc_empty : value := obj [("raw_text_lines", VList []); ("blocks", VList [])].

Definition cfg_anchor : value :=
  obj [("regex", obj [("net_content_value", obj [("pattern", str "^")])])].

Definition cfg_none : value := obj [].

(** A block whose page is a word. *)
Definition doc_page_word : value :=
  obj [("blocks", VList [obj [("block_id", str "b1"); ("block_type", str "title");
                              ("text_raw", str "Oat milk"); ("source_page", str "abc")]])].

(** Two documents with the same (empty) blocks; a line of the second has a
    page that is a word. *)
Definition doc_line_page_word : value :=
  obj [("raw_text_lines",
        VList [obj [("line_id", str "l1"); ("text", str "Oat milk"); ("source_page", str "abc")]]);
       ("blocks", VList [])].

(** The back label (page 2) comes first in the input, the front label
    (page 1) second; both carry a net-content label and no value. *)
Definition cfg_net_labels : value :=
  obj [("intents", obj [("net_content_intent",
                         obj [("keywords", VList [str "Net Wt"; str "Net Vol"])])])].

Definition doc_back_first : value :=
  obj [("blocks",
        VList [obj [("block_id", str "back"); ("block_type", str "other");
                    ("text_raw", str "Net Vol"); ("source_page", VInt 2)];
               obj [("block_id", str "front"); ("block_type", str "other");
                    ("text_raw", str "Net Wt"); ("source_page", VInt 1)]])].

(** A producer block that names the entrusted party but no principal. *)
Definition cfg_entrust : value :=
  obj [("intents",
        obj [("entrusted_party_strong_intent", obj [("keywords", VList [str "Entrusted by"])]);
             ("principal_party_intent", obj [("keywords", VList [str "Principal"])]);
             ("net_content_intent", obj [("keywords", VList [str "Net Wt"])])])].

Definition doc_entrust : value :=
  obj [("blocks",
        VList [obj [("block_id", str "t1"); ("block_type", str "title");
                    ("text_raw", str "AB"); ("source_page", VInt 0)];
               obj [("block_id", str "p1"); ("block_type", str "producer");
                    ("text_raw", str "Entrusted by Acme, Net Wt"); ("source_page", VNone)]])].

(** An item without id and without page. *)
Definition doc_sparse : value :=
  obj [("blocks", VList [obj [("block_type", str "title"); ("text_raw", str "Oat milk")]])].

(** No block, one well-formed line. *)
Definition doc_one_line : value :=
  obj [("raw_text_lines",
        VList [obj [("line_id", str "l1"); ("text", str "Oat milk"); ("source_page", VInt 1)]]);
       ("blocks", VList [])].

(** The blocks of [doc_entrust] and of [doc_back_first], as loaded. *)
Definition entrust_blocks : list Block :=
  [ mkBlock (py "t1") (py "title") (py "AB") 1;
    mkBlock (py "p1") (py "producer") (py "Entrusted by Acme, Net Wt") 1 ].

Definition back_first_blocks : list Block :=
  [ mkBlock (py "back") (py "other") (py "Net Vol") 2;
    mkBlock (py "front") (py "other") (py "Net Wt") 1 ].

Local Close Scope string_scope.

(** ** Notions used in the statements *)

(** The findings of one risk type. *)
Definition count_type (rt : pystr) (risks : list Risk) : nat :=
  length (filter (λ r, risk_type r = rt) risks).



(** The items the loader iterates over for one field of the document. *)
Definition input_items (data : value) (field : pystr) : list value :=
  match dict_get data field (VList []) with
  | Ok v => match py_iter (py_or v (VList [])) with
            | Ok items => items
            | Raise _ => []
            end
  | Raise _ => []
  end.

(** An item whose field is absent. *)
Definition field_absent (item : value) (field : pystr) : Prop :=
  ∃ d, item = VDict d ∧ assoc field d = None.

(** An item whose [source_page] is absent or false in a condition ([null],
    [0], [0.0], [false], the empty string, list or mapping). *)
Definition page_absent_or_falsy (item : value) : Prop :=
  ∃ d, item = VDict d ∧
       match assoc (py "source_page") d with
       | None => True
       | Some v => truthy v = false
       end.

(** The values [int] accepts: an integer, a boolean, a finite float, a
    string that is an integer literal. *)
Definition int_accepts {RT : PyRuntime} (v : value) : Prop :=
  match v with
  | VInt _ | VBool _ => True
  | VFloat (S754_zero _) | VFloat (S754_finite _ _ _) => True
  | VStr s => ∃ z, int_of_str s = Some z
  | _ => False
  end.

(** The values [str] accepts: every string, [None] and boolean, an integer
    within the digit limit, and a float, list or mapping whose [repr]
    returns. *)
Definition str_accepts {RT : PyRuntime} (v : value) : Prop :=
  match v with
  | VStr _ | VNone | VBool _ => True
  | VInt z => exceeds_str_digits z = false
  | _ => ∃ s, py_repr v = Ok s
  end.

(** An item whose [source_page] is absent, false in a condition, or a value
    [int] accepts. *)
Definition page_numeric_or_default {RT : PyRuntime} (item : value) : Prop :=
  ∃ d, item = VDict d ∧
       match assoc (py "source_page") d with
       | None => True
       | Some v => truthy v = false ∨ int_accepts v
       end.

(** An item whose field is absent or a value [str] accepts. *)
Definition field_printable {RT : PyRuntime} (item : value) (field : pystr) : Prop :=
  ∃ d, item = VDict d ∧
       match assoc field d with
       | None => True
       | Some v => str_accepts v
       end.

(** The items of [raw_text_lines] and of [blocks] on which every conversion
    of the loader returns. *)
Definition line_item_converts {RT : PyRuntime} (item : value) : Prop :=
  field_printable item (py "line_id") ∧ field_printable item (py "text")
  ∧ page_numeric_or_default item.

Definition block_item_converts {RT : PyRuntime} (item : value) : Prop :=
  field_printable item (py "block_id") ∧ field_printable item (py "block_type")
  ∧ field_printable item (py "text_raw") ∧ page_numeric_or_default item.

(** A field of the document that is absent, false in a condition, or a list. *)
Definition list_field (data : value) (field : pystr) : Prop :=
  ∃ d, data = VDict d ∧
       match assoc field d with
       | None => True
       | Some v => truthy v = false ∨ ∃ l, v = VList l
       end.

(** The deduplicator as a filter over the keys of the code. *)
Fixpoint keep_first_per_key (risks : list Risk) : list Risk :=
  match risks with
  | [] => []
  | r :: risks' =>
      r :: filter (λ r', dedup_key r' ≠ dedup_key r) (keep_first_per_key risks')
  end.

(** Following the spec's words for the key of a finding: the risk type when
    the evidence snippet is "N/A", otherwise the risk type, the separator
    and the dedup-normalized snippet. *)
Definition key_of_finding (r : Risk) : pystr :=
  match decide (raw_snippet (evidence r) = py "N/A") with
  | left _ => risk_type r
  | right _ =>
      risk_type r ++ py "||" ++ normalize_for_dedup_key (raw_snippet (evidence r))
  end.

(** Following the spec's words for the deduplicator: only the first finding
    of each key is kept, in the original order. *)
Fixpoint keep_first_of_each_key (risks : list Risk) : list Risk :=
  match risks with
  | [] => []
  | r :: risks' =>
      r :: filter (λ r', key_of_finding r' ≠ key_of_finding r)
             (keep_first_of_each_key risks')
  end.

(** Two findings the invariant of the final list counts as equal: the same
    risk type and either both snippets "N/A" or neither and the same
    dedup-normalized snippet. *)
Definition same_finding (r1 r2 : Risk) : Prop :=
  risk_type r1 = risk_type r2
  ∧ ((raw_snippet (evidence r1) = py "N/A" ∧ raw_snippet (evidence r2) = py "N/A")
     ∨ (raw_snippet (evidence r1) ≠ py "N/A" ∧ raw_snippet (evidence r2) ≠ py "N/A"
        ∧ normalize_for_dedup_key (raw_snippet (evidence r1))
          = normalize_for_dedup_key (raw_snippet (evidence r2)))).

(** A risk type without the character of the separator, as the thirteen
    risk types of the engine are. *)
Definition separator_free (t : pystr) : Prop := 0x7C ∉ t.

(** Following the spec's words for the page mapping ("insertion order =
    first appearance"): every page once, in the order of first appearance. *)
Fixpoint first_appearance (pages : list Z) : list Z :=
  match pages with
  | [] => []
  | p :: pages' => p :: filter (λ q, q ≠ p) (first_appearance pages')
  end.

(** The findings of one format rule are those of its pages, page after page
    in the order of the page mapping. *)
Definition page_by_page (body : Z * pystr → result (list Risk)) (scopes : Scopes)
  (risks : list Risk) : Prop :=
  ∃ parts, Forall2 (λ entry part, body entry = Ok part) (page_text_raw scopes) parts
           ∧ risks = concat parts.

(** The seven findings of the missing-field family, in production order. *)
Definition all_missing : list Risk :=
  [ risk_missing_net_content; risk_missing_product_name; risk_missing_ingredient_list;
    risk_missing_manufacturer_info; risk_missing_date_shelf_life;
    risk_missing_standard_code; risk_missing_production_license ].

(** The regex names the missing-field family consults. *)
Definition missing_regex_names : list pystr :=
  [ py "net_content_value"; py "net_content_multi"; py "date_ymd_numeric";
    py "date_ymd_cn"; py "standard_code"; py "sc_code" ].

(** ** Further examples *)

Local Open Scope string_scope.

(** A well-formed block followed by a stray number. *)
Definition doc_stray_item : value :=
  obj [("blocks",
        VList [obj [("block_id", str "b1"); ("block_type", str "title");
                    ("text_raw", str "Oat milk"); ("source_page", VInt 1)];
               VInt 7])].

Local Close Scope string_scope.

(** ** Further notions used in the statements *)

(** The risk types of the three rule families. *)
Definition missing_risk_types : list pystr := risk_type <$> all_missing.

Definition format_risk_types : list pystr :=
  [ py "format_unit_case_inconsistent"; py "format_net_content_pattern_unusual";
    py "format_standard_code_pattern_unusual"; py "format_license_code_pattern_unusual" ].

Definition relationship_risk_types : list pystr :=
  [ py "incomplete_entrust_relationship"; py "entrusted_context_ambiguous" ].

(** What every finding of the format and relationship rules has: a risk type
    of the family, the fixed detection method and a snippet that is not
    empty. *)
Definition well_formed_finding (types : list pystr) (r : Risk) : Prop :=
  risk_type r ∈ types ∧ detection_method r = DETECTION_METHOD
  ∧ raw_snippet (evidence r) ≠ [].

Arguments py : simpl never.

(** * Properties *)

(** ** Strings *)

Lemma startswith_app (p s : pystr) :
  startswith p s = true ↔ ∃ post, s = p ++ post.
Proof.
  revert s. induction p as [|a p IH]; intros s; simpl.
  - split; [eauto | done].
  - destruct s as [|b s].
    + split; [done | intros [post Hpost]; done].
    + rewrite andb_true_iff, N.eqb_eq, IH. split.
      * intros [-> [post ->]]. eauto.
      * intros [post Hpost]. simplify_eq. eauto.
Qed.

Lemma str_find_substring (p s : pystr) :
  is_Some (str_find p s) ↔ substring p s.
Proof.
  induction s as [|c s IH]; simpl.
  - destruct (startswith p []) eqn:Hp.
    + apply startswith_app in Hp as [post Hpost]. split; [|eauto].
      intros _. exists [], post. done.
    + split; [by intros [? ?]|]. intros (pre & post & Heq).
      destruct pre; simpl in *; [|done].
      assert (startswith p [] = true) by (apply startswith_app; eauto). congruence.
  - destruct (startswith p (c :: s)) eqn:Hp.
    + apply startswith_app in Hp as [post Hpost]. split; [|eauto].
      intros _. exists [], post. done.
    + rewrite fmap_is_Some, IH. split.
      * intros (pre & post & ->). exists (c :: pre), post. done.
      * intros (pre & post & Heq). destruct pre as [|c' pre]; simpl in *.
        -- assert (startswith p (c :: s) = true) by (apply startswith_app; eauto).
           congruence.
        -- simplify_eq. by exists pre, post.
Qed.

Lemma str_in_substring (p s : pystr) : str_in p s = true ↔ substring p s.
Proof. unfold str_in. rewrite bool_decide_eq_true. apply str_find_substring. Qed.

Lemma slice_substring (s : pystr) (a b : nat) : substring (slice s a b) s.
Proof.
  unfold slice, substring. exists (take a s), (drop (b - a) (drop a s)).
  by rewrite take_drop, take_drop.
Qed.

Lemma str_in_nil_r (p : pystr) : p ≠ [] → str_in p [] = false.
Proof. destruct p; [done|]. intros _. reflexivity. Qed.

Lemma count_from_nil (p : pystr) (k : nat) : p ≠ [] → count_from p [] k = 0%nat.
Proof. intros Hp. simpl. by rewrite bool_decide_eq_false_2. Qed.

(** ** Lists *)

Lemma filter_implied {A} (P Q : A → Prop) `{∀ x, Decision (P x)} `{∀ x, Decision (Q x)}
    (l : list A) :
  (∀ x, P x → Q x) → filter P (filter Q l) = filter P l.
Proof.
  intros HPQ. rewrite list_filter_filter. apply list_filter_iff. naive_solver.
Qed.

(** ** The exception monad *)

Lemma bind_Ok {A B} (m : result A) (f : A → result B) (b : B) :
  bind m f = Ok b ↔ ∃ a, m = Ok a ∧ f a = Ok b.
Proof.
  destruct m as [a|e]; simpl; split.
  - eauto.
  - by intros (? & [= ->] & ?).
  - done.
  - by intros (? & ? & ?).
Qed.

(** Splits every [let*] of a hypothesis that returned normally. *)
Ltac inv_bind H :=
  repeat match type of H with
         | bind _ _ = Ok _ =>
             let a := fresh "a" in
             let Ha := fresh "Ha" in
             apply bind_Ok in H as (a & Ha & H)
         end.

Lemma for_each_Ok {A B} (body : A → result (list B)) (l : list A) (acc out : list B) :
  for_each body l acc = Ok out →
  ∃ parts, Forall2 (λ a part, body a = Ok part) l parts ∧ out = acc ++ concat parts.
Proof.
  revert acc. induction l as [|a l IH]; intros acc Hrun; simpl in Hrun.
  - exists []. split; [constructor|]. simplify_eq. by rewrite app_nil_r.
  - apply bind_Ok in Hrun as (new & Hnew & Hrun).
    destruct (IH _ Hrun) as (parts & Hparts & ->).
    exists (new :: parts). split; [by constructor|]. simpl. by rewrite <- app_assoc.
Qed.

Lemma for_each_Forall {A B} (P : B → Prop) (body : A → result (list B))
    (l : list A) (acc out : list B) :
  (∀ a part, a ∈ l → body a = Ok part → Forall P part) →
  Forall P acc → for_each body l acc = Ok out → Forall P out.
Proof.
  intros Hbody Hacc Hrun. apply for_each_Ok in Hrun as (parts & Hparts & ->).
  apply Forall_app. split; [done|]. apply Forall_concat.
  apply Forall_forall. intros part Hpart.
  apply list_elem_of_lookup in Hpart as [i Hi].
  destruct (Forall2_lookup_r _ _ _ _ _ Hparts Hi) as (a & Ha & Hok).
  eapply Hbody; [|done]. by eapply list_elem_of_lookup_2.
Qed.

Lemma load_all_Ok {A} (f : value → result A) (items : list value) (l : list A) :
  load_all f items = Ok l ↔ Forall2 (λ x a, f x = Ok a) items l.
Proof.
  revert l. induction items as [|x items IH]; intros l; simpl.
  - split; [intros [= <-]; constructor | by inversion 1].
  - split.
    + intros Hrun. inv_bind Hrun. simplify_eq. constructor; [done|]. by apply IH.
    + inversion 1 as [|? a ? l' Hx Hrest]; subst. rewrite Hx. simpl.
      apply IH in Hrest. rewrite Hrest. done.
Qed.

(** ** Deduplication *)

Lemma dedup_loop_spec (risks : list Risk) (seen : gset pystr) (out : list Risk) :
  dedup_loop risks seen out
  = out ++ filter (λ r, dedup_key r ∉ seen) (keep_first_per_key risks).
Proof.
  revert seen out. induction risks as [|r risks IH]; intros seen out; simpl.
  - by rewrite app_nil_r.
  - case_bool_decide as Hseen.
    + rewrite IH. f_equal. rewrite filter_cons_False by tauto.
      symmetry. apply filter_implied. intros r' Hr' Heq. apply Hr'. by rewrite Heq.
    + rewrite IH, <- app_assoc. f_equal. simpl.
      rewrite filter_cons_True by done. f_equal.
      rewrite list_filter_filter. apply list_filter_iff. intros r'. set_solver.
Qed.

Lemma deduplicate_keep_first (risks : list Risk) :
  deduplicate risks = keep_first_per_key risks.
Proof.
  unfold deduplicate. rewrite dedup_loop_spec. simpl.
  induction (keep_first_per_key risks) as [|r l IH]; [done|].
  rewrite filter_cons_True by set_solver. by f_equal.
Qed.

Lemma keep_first_sublist (risks : list Risk) : sublist (keep_first_per_key risks) risks.
Proof.
  induction risks as [|r risks IH]; simpl; [done|].
  apply sublist_skip. etrans; [apply sublist_filter | done].
Qed.

Lemma keep_first_NoDup (risks : list Risk) :
  NoDup (dedup_key <$> keep_first_per_key risks).
Proof.
  induction risks as [|r risks IH]; simpl; [constructor|].
  apply NoDup_cons. split.
  - intros Hin. apply list_elem_of_fmap in Hin as (r' & Hkey & Hr').
    apply list_elem_of_filter in Hr' as [Hne _]. by apply Hne.
  - eapply sublist_NoDup; [exact IH|]. apply fmap_sublist, sublist_filter.
Qed.

Lemma keep_first_covers (risks : list Risk) (r : Risk) :
  r ∈ risks → ∃ r', r' ∈ keep_first_per_key risks ∧ dedup_key r' = dedup_key r.
Proof.
  induction risks as [|r0 risks IH]; [by intros ?%elem_of_nil|].
  intros Hin. simpl. destruct (decide (dedup_key r = dedup_key r0)) as [Heq|Hne].
  - exists r0. split; [left | done].
  - apply elem_of_cons in Hin as [->|Hin]; [done|].
    destruct (IH Hin) as (r' & Hr' & Hkey). exists r'. split; [|done].
    right. apply list_elem_of_filter. split; [congruence | done].
Qed.

Lemma key_of_finding_dedup_key (r : Risk) : key_of_finding r = dedup_key r.
Proof. unfold key_of_finding, dedup_key. destruct (decide _); by case_bool_decide. Qed.

Lemma keep_first_of_each_key_eq (risks : list Risk) :
  keep_first_of_each_key risks = keep_first_per_key risks.
Proof.
  induction risks as [|r risks IH]; simpl; [done|]. rewrite IH. f_equal.
  apply list_filter_iff. intros r'. by rewrite !key_of_finding_dedup_key.
Qed.

Lemma separator_split (a b x y : pystr) :
  separator_free a → separator_free b →
  a ++ SEPARATOR ++ x = b ++ SEPARATOR ++ y → a = b ∧ x = y.
Proof.
  unfold separator_free. change SEPARATOR with [0x7C; 0x7C].
  revert b. induction a as [|c a IH]; intros [|c' b] Ha Hb Heq; simpl in Heq.
  - by injection Heq as ->.
  - injection Heq as <- _. exfalso. apply Hb. left.
  - injection Heq as -> _. exfalso. apply Ha. left.
  - injection Heq as -> Heq. rewrite not_elem_of_cons in Ha, Hb.
    destruct (IH b) as [-> ->]; [tauto | tauto | done | done].
Qed.

Lemma separator_absent (a b x : pystr) : separator_free a → a ≠ b ++ SEPARATOR ++ x.
Proof.
  intros Ha ->. apply Ha. change SEPARATOR with [0x7C; 0x7C].
  rewrite elem_of_app. right. left.
Qed.

Lemma dedup_key_same_finding (r1 r2 : Risk) :
  separator_free (risk_type r1) → separator_free (risk_type r2) →
  dedup_key r1 = dedup_key r2 ↔ same_finding r1 r2.
Proof.
  intros H1 H2. unfold dedup_key, same_finding. fold NA.
  case_bool_decide as Hna1; case_bool_decide as Hna2; split.
  - intros Hrt. split; [done|]. by left.
  - by intros [Hrt _].
  - intros Heq. by apply separator_absent in Heq.
  - intros [_ [[_ Hna]|[Hna _]]]; done.
  - intros Heq. symmetry in Heq. by apply separator_absent in Heq.
  - intros [_ [[Hna _]|[_ [Hna _]]]]; done.
  - intros [Hrt Hsn]%separator_split; [|done..]. split; [done|]. by right.
  - intros [Hrt [[Hna _]|(_ & _ & Hsn)]]; [done|]. by rewrite Hrt, Hsn.
Qed.

(** C2. The deduplicator keeps exactly the first finding of every key, in
    production order, where the key is the risk type when the snippet is
    "N/A" and otherwise the risk type, the separator and the dedup-normalized
    snippet: its result is a subsequence of the input with pairwise distinct
    keys in which every input key is still represented; hence no two entries
    whose snippets are not "N/A" agree on risk type and dedup-normalized
    snippet, and no two "N/A" entries agree on risk type. On risk types
    without the separator character two findings have the same key exactly
    when they agree in this way, so nothing else is merged. *)
Theorem deduplicate_first_per_key (risks : list Risk) :
  deduplicate risks = keep_first_of_each_key risks
  ∧ sublist (deduplicate risks) risks
  ∧ NoDup (key_of_finding <$> deduplicate risks)
  ∧ (∀ r, r ∈ risks →
          ∃ r', r' ∈ deduplicate risks ∧ key_of_finding r' = key_of_finding r)
  ∧ (∀ i j r1 r2,
       i ≠ j → deduplicate risks !! i = Some r1 → deduplicate risks !! j = Some r2 →
       (raw_snippet (evidence r1) ≠ NA → raw_snippet (evidence r2) ≠ NA →
        ¬ (risk_type r1 = risk_type r2
           ∧ normalize_for_dedup_key (raw_snippet (evidence r1))
             = normalize_for_dedup_key (raw_snippet (evidence r2))))
       ∧ (raw_snippet (evidence r1) = NA → raw_snippet (evidence r2) = NA →
          risk_type r1 ≠ risk_type r2))
  ∧ (∀ r1 r2, separator_free (risk_type r1) → separator_free (risk_type r2) →
              (dedup_key r1 = dedup_key r2 ↔ same_finding r1 r2)).
Proof.
  rewrite keep_first_of_each_key_eq, deduplicate_keep_first.
  assert (key_of_finding <$> keep_first_per_key risks
          = dedup_key <$> keep_first_per_key risks) as Hkeys
    by (apply list_fmap_ext; intros _ r _; apply key_of_finding_dedup_key).
  split_and!; [done | apply keep_first_sublist | | | |apply dedup_key_same_finding].
  - rewrite Hkeys. apply keep_first_NoDup.
  - intros r Hr. destruct (keep_first_covers _ _ Hr) as (r' & Hr' & Hkey).
    exists r'. by rewrite !key_of_finding_dedup_key.
  - intros i j r1 r2 Hij Hi Hj.
    assert (dedup_key r1 ≠ dedup_key r2) as Hne.
    { intros Heq. apply Hij. eapply NoDup_lookup; [apply keep_first_NoDup | |].
      - by rewrite list_lookup_fmap, Hi.
      - by rewrite list_lookup_fmap, Hj, Heq. }
    unfold dedup_key in Hne. split.
    + intros H1 H2 [Hrt Hsn]. rewrite !bool_decide_eq_false_2 in Hne by done.
      by rewrite Hrt, Hsn in Hne.
    + intros H1 H2 Hrt. by rewrite !bool_decide_eq_true_2 in Hne by done.
Qed.

(** ** Loading *)

Section Loading.
Context {RT : PyRuntime}.

Lemma py_int_falsy (v : value) : truthy v = false → py_int (py_or v (VInt 1)) = Ok 1%Z.
Proof. intros Hv. unfold py_or. by rewrite Hv. Qed.

Lemma py_int_accepts (v : value) : int_accepts v → ∃ z, py_int v = Ok z.
Proof.
  destruct v as [| | |f|s| |]; simpl; try done; try by eexists.
  - destruct f; simpl; try done; by eexists.
  - intros [z ->]. by eexists.
Qed.

Lemma py_str_accepts (v : value) : str_accepts v → ∃ s, py_str v = Ok s.
Proof.
  destruct v as [|[]|z| | | |]; simpl; try done; try by eexists.
  intros ->. by eexists.
Qed.

Lemma py_int_page (d : list (pystr * value)) :
  match assoc (py "source_page") d with
  | None => True
  | Some v => truthy v = false ∨ int_accepts v
  end →
  ∃ n, py_int (py_or (match assoc (py "source_page") d with
                      | Some x => x
                      | None => VInt 1
                      end) (VInt 1)) = Ok n.
Proof.
  destruct (assoc (py "source_page") d) as [v|]; [|by exists 1%Z].
  intros [Hv|[z Hz]%py_int_accepts].
  - exists 1%Z. by rewrite py_int_falsy.
  - unfold py_or. destruct (truthy v); [by exists z | by exists 1%Z].
Qed.

Lemma py_int_page_falsy (d : list (pystr * value)) (n : Z) :
  match assoc (py "source_page") d with
  | None => True
  | Some v => truthy v = false
  end →
  py_int (py_or (match assoc (py "source_page") d with
                 | Some x => x
                 | None => VInt 1
                 end) (VInt 1)) = Ok n →
  n = 1%Z.
Proof.
  destruct (assoc (py "source_page") d) as [v|]; [|by intros _ [= <-]].
  intros Hv. rewrite py_int_falsy by done. by intros [= <-].
Qed.

Lemma py_str_field (d : list (pystr * value)) (field : pystr) :
  match assoc field d with
  | None => True
  | Some v => str_accepts v
  end →
  ∃ s, py_str (match assoc field d with Some x => x | None => VStr [] end) = Ok s
       ∧ (assoc field d = None → s = []).
Proof.
  destruct (assoc field d) as [v|]; [|by exists []].
  intros [s Hs]%py_str_accepts. exists s. by split.
Qed.

(** The page of an item whose [source_page] is absent or false in a
    condition, whenever the item loads. *)
Lemma load_line_page (item : value) (ln : Line) :
  page_absent_or_falsy item → load_line item = Ok ln → line_source_page ln = 1%Z.
Proof.
  intros (d & -> & Hpage). unfold load_line. simpl. intros Hload. inv_bind Hload.
  injection Hload as <-. simpl. by eapply py_int_page_falsy.
Qed.

Lemma load_block_page (item : value) (b : Block) :
  page_absent_or_falsy item → load_block item = Ok b → source_page b = 1%Z.
Proof.
  intros (d & -> & Hpage). unfold load_block. simpl. intros Hload. inv_bind Hload.
  injection Hload as <-. simpl. by eapply py_int_page_falsy.
Qed.

Lemma load_line_total (item : value) :
  line_item_converts item →
  ∃ ln, load_line item = Ok ln
        ∧ (field_absent item (py "line_id") → line_id ln = [])
        ∧ (page_absent_or_falsy item → line_source_page ln = 1%Z).
Proof.
  intros ((d & -> & Hid) & (d1 & [= <-] & Htext) & (d2 & [= <-] & Hpage)).
  destruct (py_str_field d _ Hid) as (lid & Hlid & Hnil).
  destruct (py_str_field d _ Htext) as (txt & Htxt & _).
  destruct (py_int_page d Hpage) as (n & Hn).
  assert (load_line (VDict d) = Ok (mkLine lid txt n)) as Hload.
  { unfold load_line. simpl. rewrite Hlid. simpl. rewrite Htxt. simpl. by rewrite Hn. }
  eexists. split; [exact Hload|]. split.
  - intros (d' & [= <-] & Habs). simpl. auto.
  - intros Hfalsy. by eapply load_line_page.
Qed.

Lemma load_block_total (item : value) :
  block_item_converts item →
  ∃ b, load_block item = Ok b
       ∧ (field_absent item (py "block_id") → block_id b = [])
       ∧ (page_absent_or_falsy item → source_page b = 1%Z).
Proof.
  intros ((d & -> & Hid) & (d1 & [= <-] & Htype) & (d2 & [= <-] & Htext)
          & (d3 & [= <-] & Hpage)).
  destruct (py_str_field d _ Hid) as (bid & Hbid & Hnil).
  destruct (py_str_field d _ Htype) as (bty & Hbty & _).
  destruct (py_str_field d _ Htext) as (txt & Htxt & _).
  destruct (py_int_page d Hpage) as (n & Hn).
  assert (load_block (VDict d) = Ok (mkBlock bid bty txt n)) as Hload.
  { unfold load_block. simpl. rewrite Hbid. simpl. rewrite Hbty. simpl.
    rewrite Htxt. simpl. by rewrite Hn. }
  eexists. split; [exact Hload|]. split.
  - intros (d' & [= <-] & Habs). simpl. auto.
  - intros Hfalsy. by eapply load_block_page.
Qed.

Lemma page_falsy_numeric_or_default (item : value) :
  page_absent_or_falsy item → page_numeric_or_default item.
Proof.
  intros (d & -> & Hd). exists d. split; [done|].
  destruct (assoc (py "source_page") d); auto.
Qed.

(** An item whose id is an integer beyond the digit limit does not load,
    whatever its page. *)
Lemma load_block_long_id (d : list (pystr * value)) (z : Z) :
  assoc (py "block_id") d = Some (VInt z) → exceeds_str_digits z = true →
  load_block (VDict d) = Raise ValueError.
Proof. intros Hid Hz. unfold load_block. simpl. rewrite Hid. simpl. by rewrite Hz. Qed.

Lemma load_all_total {A} (f : value → result A) (items : list value) :
  Forall (λ x, ∃ a, f x = Ok a) items → ∃ l, load_all f items = Ok l.
Proof.
  induction 1 as [|x items [a Ha] _ [l Hl]]; simpl; [by eexists|].
  rewrite Ha. simpl. rewrite Hl. simpl. by eexists.
Qed.

Lemma load_output_inv (data : value) (lines : list Line) (blocks : list Block) :
  load_block_extractor_output data = Ok (lines, blocks) →
  load_all load_line (input_items data (py "raw_text_lines")) = Ok lines
  ∧ load_all load_block (input_items data (py "blocks")) = Ok blocks.
Proof.
  unfold load_block_extractor_output, input_items. intros Hload.
  destruct (dict_get data (py "raw_text_lines") (VList [])) as [rl|]; [|done].
  simpl in Hload. destruct (py_iter (py_or rl (VList []))) as [items|]; [|done].
  simpl in Hload. destruct (load_all load_line items) as [ls|]; [|done].
  simpl in Hload. destruct (dict_get data (py "blocks") (VList [])) as [bl|]; [|done].
  simpl in Hload. destruct (py_iter (py_or bl (VList []))) as [bitems|]; [|done].
  simpl in Hload. destruct (load_all load_block bitems) as [bs|]; [|done].
  simpl in Hload. by simplify_eq.
Qed.

Lemma input_items_list_field (data : value) (field : pystr) :
  list_field data field →
  ∃ v, dict_get data field (VList []) = Ok v
       ∧ py_iter (py_or v (VList [])) = Ok (input_items data field).
Proof.
  intros (d & -> & Hd). unfold input_items. simpl.
  destruct (assoc field d) as [v|]; [|by eexists].
  exists v. split; [done|]. destruct Hd as [Hv|[l ->]].
  - unfold py_or. by rewrite Hv.
  - unfold py_or. by destruct l.
Qed.

End Loading.

(** C9. A line or block whose [source_page] is absent, [null], 0 or any other
    value that is false in a condition is loaded with [source_page] 1:
    whenever such an item loads its page is 1, it does load when [str]
    accepts its other fields, and in a document that loads the line or block
    at the position of such an item has page 1. *)
Theorem load_falsy_page_is_one {RT : PyRuntime} (item : value) :
  page_absent_or_falsy item →
  (∀ ln, load_line item = Ok ln → line_source_page ln = 1%Z)
  ∧ (∀ b, load_block item = Ok b → source_page b = 1%Z)
  ∧ (field_printable item (py "line_id") → field_printable item (py "text") →
     ∃ ln, load_line item = Ok ln ∧ line_source_page ln = 1%Z)
  ∧ (field_printable item (py "block_id") → field_printable item (py "block_type") →
     field_printable item (py "text_raw") →
     ∃ b, load_block item = Ok b ∧ source_page b = 1%Z)
  ∧ (∀ data lines blocks i,
       load_block_extractor_output data = Ok (lines, blocks) →
       (input_items data (py "raw_text_lines") !! i = Some item →
        ∃ ln, lines !! i = Some ln ∧ line_source_page ln = 1%Z)
       ∧ (input_items data (py "blocks") !! i = Some item →
          ∃ b, blocks !! i = Some b ∧ source_page b = 1%Z)).
Proof.
  intros Hfalsy. pose proof (page_falsy_numeric_or_default _ Hfalsy) as Hnum.
  split_and!.
  - intros ln. by apply load_line_page.
  - intros b. by apply load_block_page.
  - intros Hid Htext.
    destruct (load_line_total item) as (ln & Hln & _ & Hpage); [done|]. eauto.
  - intros Hid Htype Htext.
    destruct (load_block_total item) as (b & Hb & _ & Hpage); [done|]. eauto.
  - intros data lines blocks i Hload.
    apply load_output_inv in Hload as [Hlines Hblocks].
    apply load_all_Ok in Hlines, Hblocks. split; intros Hi.
    + destruct (Forall2_lookup_l _ _ _ _ _ Hlines Hi) as (ln & Hln & Hok).
      exists ln. split; [done|]. by eapply load_line_page.
    + destruct (Forall2_lookup_l _ _ _ _ _ Hblocks Hi) as (b & Hb & Hok).
      exists b. split; [done|]. by eapply load_block_page.
Qed.

(** C5, as the loader has it. When [raw_text_lines] and [blocks] are absent,
    false in a condition or lists, and every item is a mapping whose
    [source_page] is absent, false in a condition or a value [int] accepts and
    whose id, type and text are absent or values [str] accepts, the loader
    returns normally; an absent [line_id] or [block_id] is loaded as the empty
    string and an absent or false [source_page] as page 1. *)
Theorem load_coerces_defaults {RT : PyRuntime} (data : value) :
  list_field data (py "raw_text_lines") →
  list_field data (py "blocks") →
  Forall line_item_converts (input_items data (py "raw_text_lines")) →
  Forall block_item_converts (input_items data (py "blocks")) →
  ∃ lines blocks,
    load_block_extractor_output data = Ok (lines, blocks)
    ∧ (∀ i item, input_items data (py "raw_text_lines") !! i = Some item →
         ∃ ln, lines !! i = Some ln
               ∧ (field_absent item (py "line_id") → line_id ln = [])
               ∧ (page_absent_or_falsy item → line_source_page ln = 1%Z))
    ∧ (∀ i item, input_items data (py "blocks") !! i = Some item →
         ∃ b, blocks !! i = Some b
              ∧ (field_absent item (py "block_id") → block_id b = [])
              ∧ (page_absent_or_falsy item → source_page b = 1%Z)).
Proof.
  intros Hlf Hbf Hlines Hblocks.
  destruct (input_items_list_field _ _ Hlf) as (vl & Hvl & Hil).
  destruct (input_items_list_field _ _ Hbf) as (vb & Hvb & Hib).
  destruct (load_all_total load_line (input_items data (py "raw_text_lines")))
    as [lines Hl].
  { eapply Forall_impl; [exact Hlines|]. intros item Hitem.
    destruct (load_line_total _ Hitem) as (ln & ? & _). eauto. }
  destruct (load_all_total load_block (input_items data (py "blocks")))
    as [blocks Hb].
  { eapply Forall_impl; [exact Hblocks|]. intros item Hitem.
    destruct (load_block_total _ Hitem) as (b & ? & _). eauto. }
  exists lines, blocks. split.
  - unfold load_block_extractor_output. rewrite Hvl. simpl. rewrite Hil. simpl.
    rewrite Hl. simpl. rewrite Hvb. simpl. rewrite Hib. simpl. by rewrite Hb.
  - apply load_all_Ok in Hl, Hb. split; intros i item Hi.
    + destruct (Forall2_lookup_l _ _ _ _ _ Hl Hi) as (ln & Hln & Hok).
      exists ln. split; [done|].
      rewrite Forall_lookup in Hlines.
      destruct (load_line_total _ (Hlines _ _ Hi)) as (ln' & Hln' & Hid & Hpage).
      rewrite Hok in Hln'. by injection Hln' as <-.
    + destruct (Forall2_lookup_l _ _ _ _ _ Hb Hi) as (b & Hbi & Hok).
      exists b. split; [done|].
      rewrite Forall_lookup in Hblocks.
      destruct (load_block_total _ (Hblocks _ _ Hi)) as (b' & Hb' & Hid & Hpage).
      rewrite Hok in Hb'. by injection Hb' as <-.
Qed.

(** ** Insertion-ordered dictionaries *)

Section Dict.
Context {K A : Type} `{EqDecision K}.

Lemma dict_lookup_set (k k' : K) (a : A) (d : list (K * A)) :
  dict_lookup k' (dict_set k a d) = if decide (k' = k) then Some a else dict_lookup k' d.
Proof.
  induction d as [|[k0 a0] d IH]; simpl.
  - repeat case_decide; congruence.
  - destruct (decide (k = k0)) as [->|Hne]; simpl.
    + repeat case_decide; congruence.
    + rewrite IH. repeat case_decide; congruence.
Qed.

Lemma dict_set_keys_present (k : K) (a : A) (d : list (K * A)) :
  is_Some (dict_lookup k d) → (dict_set k a d).*1 = d.*1.
Proof.
  induction d as [|[k0 a0] d IH]; simpl; [by intros [? ?]|].
  destruct (decide (k = k0)) as [->|Hne]; simpl; [done|].
  intros Hk. f_equal. by apply IH.
Qed.

Lemma dict_set_keys_absent (k : K) (a : A) (d : list (K * A)) :
  dict_lookup k d = None → (dict_set k a d).*1 = d.*1 ++ [k].
Proof.
  induction d as [|[k0 a0] d IH]; simpl; [done|].
  destruct (decide (k = k0)) as [->|Hne]; simpl; [done|].
  intros Hk. f_equal. by apply IH.
Qed.

Lemma dict_lookup_keys (k : K) (d : list (K * A)) :
  is_Some (dict_lookup k d) ↔ k ∈ d.*1.
Proof.
  induction d as [|[k0 a0] d IH]; simpl.
  - split; [by intros [? ?] | by intros ?%elem_of_nil].
  - rewrite elem_of_cons. destruct (decide (k = k0)) as [->|Hne].
    + split; eauto.
    + rewrite IH. naive_solver.
Qed.

End Dict.

(** ** Scopes *)

Lemma by_type_lookup (bs : list Block) (d : list (pystr * list Block)) (bt : pystr) :
  default [] (dict_lookup bt (foldl by_type_step d bs))
  = default [] (dict_lookup bt d) ++ filter (λ b, block_type b = bt) bs.
Proof.
  revert d. induction bs as [|b bs IH]; intros d; simpl.
  - by rewrite app_nil_r.
  - rewrite IH. unfold by_type_step at 1. rewrite dict_lookup_set.
    rewrite filter_cons. destruct (decide (block_type b = bt)) as [<-|Hne].
    + rewrite decide_True by done. simpl. by rewrite <- app_assoc.
    + rewrite decide_False by done. done.
Qed.

Lemma blocks_of_type (lines : list Line) (bs : list Block) (bt : pystr) :
  default [] (dict_lookup bt (blocks_by_type (build_scopes lines bs)))
  = filter (λ b, block_type b = bt) bs.
Proof. simpl. by rewrite by_type_lookup. Qed.

Lemma title_ok_spec (lines : list Line) (bs : list Block) :
  title_ok (build_scopes lines bs) = true
  ↔ ∃ b, b ∈ bs ∧ block_type b = py "title" ∧ (3 ≤ length (strip (text_raw b)))%nat.
Proof.
  unfold title_ok. rewrite blocks_of_type, existsb_exists. split.
  - intros (b & Hb & Hlen). apply list_elem_of_In, list_elem_of_filter in Hb as [Hty Hb].
    apply bool_decide_eq_true in Hlen. exists b. split_and!; [done..|lia].
  - intros (b & Hb & Hty & Hlen). exists b. split.
    + apply list_elem_of_In, list_elem_of_filter. done.
    + apply bool_decide_eq_true. lia.
Qed.

(** ** Missing fields *)

Lemma count_type_append_unless (rt : pystr) (observed : bool) (r : Risk) (l : list Risk) :
  count_type rt (append_unless observed r l)
  = (count_type rt l
     + if observed then 0 else if decide (risk_type r = rt) then 1 else 0)%nat.
Proof.
  unfold count_type, append_unless. destruct observed; [lia|].
  rewrite filter_app, length_app, list.filter_singleton; [|exact l].
  by destruct (decide (risk_type r = rt)).
Qed.

Lemma rule_missing_product_name {RT : PyRuntime} (scopes : Scopes) (cfg : value)
    (regexes : list (pystr * RegexPattern)) (risks : list Risk) :
  rule_missing scopes cfg regexes = Ok risks →
  count_type (py "missing_product_name") risks = if title_ok scopes then 0%nat else 1%nat.
Proof.
  unfold rule_missing. intros Hrun. inv_bind Hrun. injection Hrun as <-.
  rewrite !count_type_append_unless.
  destruct (title_ok scopes), a0, a1, a2, a3, a4, a5; reflexivity.
Qed.

(** C7. When the missing-field evaluator returns, it emits exactly one
    [missing_product_name] finding if every title block has at most two code
    points once stripped, and none if some title block has at least three; a
    lone title "AB" is of the first kind and a lone title "ABC" of the
    second. *)
Theorem title_threshold {RT : PyRuntime} (lines : list Line) (blocks : list Block)
    (cfg : value) (regexes : list (pystr * RegexPattern)) (risks : list Risk) :
  rule_missing (build_scopes lines blocks) cfg regexes = Ok risks →
  ((∀ b, b ∈ blocks → block_type b = py "title" → (length (strip (text_raw b)) ≤ 2)%nat) →
   count_type (py "missing_product_name") risks = 1%nat)
  ∧ ((∃ b, b ∈ blocks ∧ block_type b = py "title" ∧ (3 ≤ length (strip (text_raw b)))%nat) →
     count_type (py "missing_product_name") risks = 0%nat)
  ∧ (∀ bid page, blocks = [mkBlock bid (py "title") (py "AB") page] →
     count_type (py "missing_product_name") risks = 1%nat)
  ∧ (∀ bid page, blocks = [mkBlock bid (py "title") (py "ABC") page] →
     count_type (py "missing_product_name") risks = 0%nat).
Proof.
  intros Hrun. apply rule_missing_product_name in Hrun.
  assert ((∃ b, b ∈ blocks ∧ block_type b = py "title"
                ∧ (3 ≤ length (strip (text_raw b)))%nat) →
          count_type (py "missing_product_name") risks = 0%nat) as Hlong.
  { intros Hex. apply title_ok_spec with (lines := lines) in Hex. by rewrite Hex in Hrun. }
  assert ((∀ b, b ∈ blocks → block_type b = py "title" →
                (length (strip (text_raw b)) ≤ 2)%nat) →
          count_type (py "missing_product_name") risks = 1%nat) as Hshort.
  { intros Hall. destruct (title_ok (build_scopes lines blocks)) eqn:Hok; [|done].
    apply title_ok_spec in Hok as (b & Hb & Hty & Hlen).
    specialize (Hall b Hb Hty). lia. }
  split_and!; [done..| |].
  - intros bid page ->. apply Hshort. intros b ->%list_elem_of_singleton _.
    vm_compute. lia.
  - intros bid page ->. apply Hlong. eexists. split; [by apply list_elem_of_singleton|].
    split; [done|]. vm_compute. lia.
Qed.

(** ** The empty document *)

Section EmptyText.
Context {RT : PyRuntime}.

Lemma normalize_for_match_nil (cfg : value) (s : pystr) :
  normalize_for_match [] cfg = Ok s → s = [].
Proof.
  unfold normalize_for_match. intros Hrun. inv_bind Hrun. injection Hrun as <-.
  destruct (truthy a1), (truthy a2), (truthy a3); reflexivity.
Qed.

Lemma intent_match_any_nil (kws : list pystr) (cfg : value) (b : bool) :
  intent_match_any [] kws cfg = Ok b → b = false.
Proof.
  induction kws as [|kw kws IH]; simpl; [by intros [= <-]|].
  intros Hrun. apply bind_Ok in Hrun as (kw_norm & _ & Hrun).
  destruct (decide (kw_norm = [])) as [->|Hne]; [by apply IH|].
  rewrite str_in_nil_r, andb_false_r in Hrun by done. by apply IH.
Qed.

Lemma has_intent_nil (cfg : value) (intent : pystr) (b : bool) :
  has_intent [] cfg intent = Ok b → b = false.
Proof.
  unfold has_intent. intros Hrun. apply bind_Ok in Hrun as (kws & _ & Hrun).
  by eapply intent_match_any_nil.
Qed.

Lemma or_else_false (a b : result bool) (x : bool) :
  or_else a b = Ok x →
  (∀ y, a = Ok y → y = false) → (∀ y, b = Ok y → y = false) → x = false.
Proof.
  unfold or_else. intros Hrun Ha Hb. apply bind_Ok in Hrun as (y & Hy & Hrun).
  rewrite (Ha _ Hy) in Hrun. by apply Hb.
Qed.

Lemma has_regex_no_match (scopes : Scopes) (regexes : list (pystr * RegexPattern))
    (rname : pystr) (b : bool) :
  (∀ rx ms, dict_lookup rname regexes = Some rx →
            regex_find_any (global_text_raw scopes) rx = Ok ms → ms = []) →
  has_regex scopes regexes rname = Ok b → b = false.
Proof.
  unfold has_regex. intros Hno Hrun.
  destruct (dict_lookup rname regexes) as [rx|]; [|by injection Hrun as <-].
  apply bind_Ok in Hrun as (ms & Hms & Hrun). injection Hrun as <-.
  by rewrite (Hno rx ms eq_refl Hms).
Qed.

Lemma count_weak_nil (kws : list pystr) (cfg : value) (n m : nat) :
  count_weak [] kws cfg n = Ok m → m = n.
Proof.
  revert n. induction kws as [|kw kws IH]; intros n; simpl; [by intros [= <-]|].
  intros Hrun. apply bind_Ok in Hrun as (kw_norm & _ & Hrun).
  apply IH in Hrun as ->. case_bool_decide as Hkw; [done|].
  unfold str_count. rewrite count_from_nil by done. lia.
Qed.

Lemma rule_missing_empty (lines : list Line) (cfg : value)
    (regexes : list (pystr * RegexPattern)) (risks : list Risk) :
  (∀ rname rx ms, rname ∈ missing_regex_names → dict_lookup rname regexes = Some rx →
                  regex_find_any [] rx = Ok ms → ms = []) →
  rule_missing (build_scopes lines []) cfg regexes = Ok risks → risks = all_missing.
Proof.
  intros Hno. unfold rule_missing. intros Hrun. inv_bind Hrun. injection Hrun as <-.
  apply normalize_for_match_nil in Ha as ->.
  assert (∀ rname, rname ∈ missing_regex_names → ∀ b,
            has_regex (build_scopes lines []) regexes rname = Ok b → b = false) as Hrx.
  { intros rname Hin b. apply has_regex_no_match. intros rx ms. by apply Hno. }
  assert (∀ bt b, Ok (has_block_type (build_scopes lines []) bt) = Ok b → b = false)
    as Hbt by (by intros bt b [= <-]).
  assert (a0 = false) as ->.
  { apply (or_else_false _ _ _ Ha0); [apply has_intent_nil |].
    intros y Hy. apply (or_else_false _ _ _ Hy); [|]; apply Hrx; set_solver. }
  assert (a1 = false) as ->.
  { apply (or_else_false _ _ _ Ha1); [apply has_intent_nil | apply Hbt]. }
  assert (a2 = false) as ->.
  { apply (or_else_false _ _ _ Ha2); [apply has_intent_nil | apply Hbt]. }
  assert (a3 = false) as ->.
  { apply (or_else_false _ _ _ Ha3); [apply has_intent_nil |].
    intros y Hy. apply (or_else_false _ _ _ Hy); [apply Hbt |].
    intros z Hz. apply (or_else_false _ _ _ Hz); [|]; apply Hrx; set_solver. }
  assert (a4 = false) as ->.
  { apply (or_else_false _ _ _ Ha4); [apply has_intent_nil |].
    intros y Hy. apply (or_else_false _ _ _ Hy); [apply Hbt |].
    apply Hrx; set_solver. }
  assert (a5 = false) as ->.
  { apply (or_else_false _ _ _ Ha5); [apply has_intent_nil |].
    intros y Hy. apply (or_else_false _ _ _ Hy); [apply Hbt |].
    apply Hrx; set_solver. }
  reflexivity.
Qed.

Lemma rule_format_empty (lines : list Line) (cfg : value)
    (regexes : list (pystr * RegexPattern)) (risks : list Risk) :
  rule_format (build_scopes lines []) cfg regexes = Ok risks → risks = [].
Proof.
  unfold rule_format. simpl. intros Hrun. inv_bind Hrun. by simplify_eq.
Qed.

Lemma rule_relationship_empty (lines : list Line) (cfg : value)
    (regexes : list (pystr * RegexPattern)) (risks : list Risk) :
  rule_relationship (build_scopes lines []) cfg regexes = Ok risks → risks = [].
Proof.
  unfold rule_relationship. simpl. intros Hrun. inv_bind Hrun.
  apply normalize_for_match_nil in Ha as ->.
  apply intent_match_any_nil in Ha4 as ->, Ha5 as ->. simpl in Hrun.
  inv_bind Hrun. apply count_weak_nil in Ha8 as ->. simpl in Hrun. by injection Hrun as <-.
Qed.

End EmptyText.

(** C4, as the engine has it. On a document without blocks, whenever the run
    completes and none of the six configured value patterns the missing-field
    rules consult has a match in the empty text, the risk list is exactly the
    seven missing-field findings in production order, so each of the seven
    risk types is present exactly once. *)
Theorem empty_document_all_missing {RT : PyRuntime} (doc cfg : value) (lines : list Line)
    (out : EngineOutput) :
  load_block_extractor_output doc = Ok (lines, []) →
  run_engine doc cfg = Ok out →
  (∀ regexes rname rx ms,
     compile_regexes cfg = Ok regexes → rname ∈ missing_regex_names →
     dict_lookup rname regexes = Some rx → regex_find_any [] rx = Ok ms → ms = []) →
  risk_list out = all_missing
  ∧ ∀ r, r ∈ all_missing → count_type (risk_type r) (risk_list out) = 1%nat.
Proof.
  intros Hload Hrun Hno. unfold run_engine in Hrun. rewrite Hload in Hrun.
  simpl in Hrun. inv_bind Hrun. injection Hrun as <-. simpl.
  apply rule_missing_empty in Ha0 as ->; [|by eauto].
  apply rule_format_empty in Ha1 as ->. apply rule_relationship_empty in Ha2 as ->.
  split; [by vm_compute|]. intros r Hr.
  assert (deduplicate ((all_missing ++ []) ++ []) = all_missing) as -> by (by vm_compute).
  repeat (apply elem_of_cons in Hr as [->|Hr]; [by vm_compute|]).
  by apply elem_of_nil in Hr.
Qed.

(** ** Relationship: the strong trigger *)

(** C3. When the keyword lists of the configuration can be read, some
    strong-entrustment keyword matches the normalized text of the whole
    document and no principal-party keyword does, the relationship evaluator
    returns exactly one finding; it is an [incomplete_entrust_relationship]
    finding, and there is no [entrusted_context_ambiguous] finding. *)
Theorem strong_without_principal {RT : PyRuntime} (scopes : Scopes) (cfg : value)
    (regexes : list (pystr * RegexPattern)) (global_norm : pystr)
    (kws_principal kws_strong kws_weak kws_producer : list pystr) :
  normalize_for_match (global_text_raw scopes) cfg = Ok global_norm →
  get_intent_keywords cfg (py "principal_party_intent") = Ok kws_principal →
  get_intent_keywords cfg (py "entrusted_party_strong_intent") = Ok kws_strong →
  get_intent_keywords cfg (py "entrusted_party_weak_intent") = Ok kws_weak →
  get_intent_keywords cfg (py "producer_intent") = Ok kws_producer →
  intent_match_any global_norm kws_strong cfg = Ok true →
  intent_match_any global_norm kws_principal cfg = Ok false →
  ∃ risks, rule_relationship scopes cfg regexes = Ok risks
           ∧ length risks = 1%nat
           ∧ count_type (py "incomplete_entrust_relationship") risks = 1%nat
           ∧ count_type (py "entrusted_context_ambiguous") risks = 0%nat.
Proof.
  intros Hnorm Hprincipal Hstrong Hweak Hproducer Hhas_strong Hhas_principal.
  unfold rule_relationship.
  rewrite Hnorm; simpl. rewrite Hprincipal; simpl. rewrite Hstrong; simpl.
  rewrite Hweak; simpl. rewrite Hproducer; simpl.
  rewrite Hhas_principal; simpl. rewrite Hhas_strong; simpl.
  destruct (pick_first_keyword_evidence_in_blocks (blocks scopes) kws_strong cfg)
    as [snippet bid].
  eexists. split; [reflexivity|]. by vm_compute.
Qed.

(** ** Format: the order of the pages *)

Lemma page_text_step_keys (d : list (Z * pystr)) (b : Block) :
  (page_text_step d b).*1
  = if decide (source_page b ∈ d.*1) then d.*1 else d.*1 ++ [source_page b].
Proof.
  unfold page_text_step.
  destruct (dict_lookup (source_page b) d) as [old|] eqn:Hlook.
  - rewrite decide_True by (apply dict_lookup_keys; eauto).
    case_bool_decide; [done|]. rewrite dict_set_keys_present; eauto.
  - rewrite decide_False by (rewrite <- dict_lookup_keys, Hlook; by intros [? ?]).
    case_bool_decide; [by apply dict_set_keys_absent|].
    rewrite dict_set_keys_present; [by apply dict_set_keys_absent|].
    rewrite dict_lookup_set, decide_True by done. eauto.
Qed.

Lemma page_text_keys (bs : list Block) (d : list (Z * pystr)) :
  (foldl page_text_step d bs).*1
  = d.*1 ++ filter (λ p, p ∉ d.*1) (first_appearance (source_page <$> bs)).
Proof.
  revert d. induction bs as [|b bs IH]; intros d; simpl.
  - by rewrite app_nil_r.
  - rewrite IH, page_text_step_keys. destruct (decide (source_page b ∈ d.*1)) as [Hin|Hout].
    + f_equal. rewrite filter_cons_False by tauto.
      symmetry. apply filter_implied. intros p Hp ->. done.
    + rewrite <- app_assoc. f_equal. simpl. rewrite filter_cons_True by done. f_equal.
      rewrite list_filter_filter. apply list_filter_iff. intros p.
      rewrite elem_of_app, list_elem_of_singleton. tauto.
Qed.

Lemma first_appearance_subset (pages : list Z) (p : Z) :
  p ∈ first_appearance pages → p ∈ pages.
Proof.
  induction pages as [|q pages IH]; simpl; [done|].
  rewrite !elem_of_cons, list_elem_of_filter. naive_solver.
Qed.

Lemma StronglySorted_filter {A} (R : A → A → Prop) (P : A → Prop) `{∀ x, Decision (P x)}
    (l : list A) :
  StronglySorted R l → StronglySorted R (filter P l).
Proof.
  induction 1 as [|x l Hl IH Hx]; [constructor|].
  rewrite filter_cons. destruct (decide (P x)); [|done].
  constructor; [done|]. rewrite Forall_forall in Hx |- *.
  intros y [_ Hy]%list_elem_of_filter. auto.
Qed.

Lemma first_appearance_sorted (pages : list Z) :
  StronglySorted Z.le pages → StronglySorted Z.lt (first_appearance pages).
Proof.
  induction 1 as [|p pages Hsorted IH Hp]; simpl; [constructor|].
  constructor; [by apply StronglySorted_filter|].
  apply Forall_forall. intros q [Hne Hq%first_appearance_subset]%list_elem_of_filter.
  rewrite Forall_forall in Hp. specialize (Hp q Hq). lia.
Qed.

Lemma for_each_page_by_page (body : Z * pystr → result (list Risk)) (scopes : Scopes)
    (acc out : list Risk) :
  for_each body (page_text_raw scopes) acc = Ok out →
  ∃ part, out = acc ++ part ∧ page_by_page body scopes part.
Proof.
  intros (parts & Hparts & ->)%for_each_Ok. exists (concat parts).
  split; [done|]. by exists parts.
Qed.

(** C6, as the engine has it. The page mapping lists every page once, in the
    order in which the pages first appear among the blocks (strictly
    ascending when the blocks come in ascending page order); the format
    findings are those of the unit-casing rule, then the net-content, the
    standard-code and the licence-code rule, and within each rule they follow
    the pages in the order of the mapping. *)
Theorem format_pages_in_first_appearance_order {RT : PyRuntime} (lines : list Line)
    (blocks : list Block) (cfg : value) (regexes : list (pystr * RegexPattern))
    (risks : list Risk) :
  let scopes := build_scopes lines blocks in
  rule_format scopes cfg regexes = Ok risks →
  (page_text_raw scopes).*1 = first_appearance (source_page <$> blocks)
  ∧ (StronglySorted Z.le (source_page <$> blocks) →
     StronglySorted Z.lt (page_text_raw scopes).*1)
  ∧ ∃ kws_net kws_std kws_lic unit net std lic,
      get_intent_keywords cfg (py "net_content_intent") = Ok kws_net
      ∧ get_intent_keywords cfg (py "standard_label_intent") = Ok kws_std
      ∧ get_intent_keywords cfg (py "license_label_intent") = Ok kws_lic
      ∧ risks = unit ++ net ++ std ++ lic
      ∧ page_by_page
          (format_unit_case_page scopes
             (dict_lookup (py "unit_ml_upper") regexes)
             (dict_lookup (py "unit_ml_mixed") regexes)
             (dict_lookup (py "unit_l_upper") regexes)
             (dict_lookup (py "unit_l_lower") regexes)) scopes unit
      ∧ page_by_page
          (format_net_content_page scopes cfg kws_net
             (dict_lookup (py "net_content_value") regexes)
             (dict_lookup (py "net_content_multi") regexes)) scopes net
      ∧ page_by_page
          (format_standard_code_page scopes cfg kws_std
             (dict_lookup (py "standard_code") regexes)) scopes std
      ∧ page_by_page
          (format_license_code_page scopes cfg kws_lic
             (dict_lookup (py "sc_code") regexes)) scopes lic.
Proof.
  intros scopes Hrun.
  assert ((page_text_raw scopes).*1 = first_appearance (source_page <$> blocks)) as Hkeys.
  { simpl. rewrite page_text_keys. simpl.
    induction (first_appearance (source_page <$> blocks)) as [|p l IH]; [done|].
    rewrite filter_cons_True by apply not_elem_of_nil. by f_equal. }
  split; [done|]. split.
  { rewrite Hkeys. apply first_appearance_sorted. }
  unfold rule_format in Hrun.
  apply bind_Ok in Hrun as (r1 & (unit & -> & Hunit)%for_each_page_by_page & Hrun).
  apply bind_Ok in Hrun as (kws_net & Hnet & Hrun).
  apply bind_Ok in Hrun as (r2 & (net & -> & Hnetp)%for_each_page_by_page & Hrun).
  apply bind_Ok in Hrun as (kws_std & Hstd & Hrun).
  apply bind_Ok in Hrun as (r3 & (std & -> & Hstdp)%for_each_page_by_page & Hrun).
  apply bind_Ok in Hrun as (kws_lic & Hlic & Hrun).
  apply bind_Ok in Hrun as (r4 & (lic & -> & Hlicp)%for_each_page_by_page & Hrun).
  injection Hrun as <-.
  exists kws_net, kws_std, kws_lic, unit, net, std, lic.
  split_and!; try done. simpl. by rewrite <- !app_assoc.
Qed.

(** ** The engine as a function of its inputs *)





Lemma rules_ignore_lines {RT : PyRuntime} (lines1 lines2 : list Line) (blocks : list Block)
    (cfg : value) (regexes : list (pystr * RegexPattern)) :
  rule_missing (build_scopes lines1 blocks) cfg regexes
  = rule_missing (build_scopes lines2 blocks) cfg regexes
  ∧ rule_format (build_scopes lines1 blocks) cfg regexes
    = rule_format (build_scopes lines2 blocks) cfg regexes
  ∧ rule_relationship (build_scopes lines1 blocks) cfg regexes
    = rule_relationship (build_scopes lines2 blocks) cfg regexes.
Proof. done. Qed.

(** C10, as the engine has it. Two documents with identical blocks that both
    load yield the same outcome under every configuration, whatever their
    [raw_text_lines]: the lines reach no rule, they can only make the loader
    raise. *)
Theorem lines_do_not_reach_the_rules {RT : PyRuntime} (doc1 doc2 cfg : value)
    (lines1 lines2 : list Line) (blocks1 blocks2 : list Block) :
  dict_get doc1 (py "blocks") (VList []) = dict_get doc2 (py "blocks") (VList []) →
  load_block_extractor_output doc1 = Ok (lines1, blocks1) →
  load_block_extractor_output doc2 = Ok (lines2, blocks2) →
  blocks1 = blocks2
  ∧ run_engine doc1 cfg = run_engine doc2 cfg
  ∧ ∀ out1 out2, run_engine doc1 cfg = Ok out1 → run_engine doc2 cfg = Ok out2 →
                 risk_list out1 = risk_list out2.
Proof.
  intros Hblocks Hload1 Hload2.
  assert (blocks1 = blocks2) as <-.
  { apply load_output_inv in Hload1 as [_ Hb1], Hload2 as [_ Hb2].
    unfold input_items in Hb1, Hb2. rewrite Hblocks in Hb1. congruence. }
  assert (run_engine doc1 cfg = run_engine doc2 cfg) as Heq.
  { unfold run_engine. rewrite Hload1, Hload2. simpl.
    destruct (compile_regexes cfg) as [regexes|]; [|done]. simpl.
    destruct (rules_ignore_lines lines1 lines2 blocks1 cfg regexes)
      as (-> & -> & ->). done. }
  split; [done|]. split; [done|]. intros out1 out2 H1 H2. congruence.
Qed.

(** ** Evidence *)

Section Evidence.
Context {RT : PyRuntime}.













Lemma pick_evidence_keyword_substring (original_text keyword snippet : pystr)
    (cfg : value) :
  pick_evidence_snippet_for_keyword original_text keyword cfg = Some snippet →
  substring snippet original_text.
Proof.
  unfold pick_evidence_snippet_for_keyword. case_bool_decide; [done|].
  destruct (str_find keyword original_text) as [i|] eqn:Hfind.
  - intros [= <-]. apply str_find_substring. eauto.
  - destruct (re_search_escaped_ignorecase keyword original_text) as [[a b]|]; [|done].
    intros [= <-]. apply slice_substring.
Qed.






End Evidence.


(** ** The examples, evaluated *)



Lemma load_falsy_page_is_one_witness :
  page_absent_or_falsy (obj [("block_id"%string, VStr (py "t1")); ("source_page"%string, VInt 0)])
  ∧ ∃ b, load_block (RT := ascii_runtime)
           (obj [("block_id"%string, VStr (py "t1")); ("source_page"%string, VInt 0)]) = Ok b
         ∧ source_page b = 1%Z.
Proof.
  assert (page_absent_or_falsy
            (obj [("block_id"%string, VStr (py "t1")); ("source_page"%string, VInt 0)]))
    as Hfalsy by (eexists; split; [reflexivity | vm_compute; reflexivity]).
  split; [exact Hfalsy|].
  apply (proj1 (proj2 (proj2 (proj2
           (load_falsy_page_is_one (RT := ascii_runtime) _ Hfalsy)))));
    (eexists; split; [reflexivity|]; vm_compute; first [exact I | by eexists]).
Defined.

Lemma load_coerces_defaults_witness :
  list_field doc_sparse (py "raw_text_lines")
  ∧ list_field doc_sparse (py "blocks")
  ∧ Forall (line_item_converts (RT := ascii_runtime))
      (input_items doc_sparse (py "raw_text_lines"))
  ∧ Forall (block_item_converts (RT := ascii_runtime)) (input_items doc_sparse (py "blocks"))
  ∧ ∃ lines blocks,
      load_block_extractor_output (RT := ascii_runtime) doc_sparse = Ok (lines, blocks)
      ∧ ∃ b, blocks !! 0%nat = Some b ∧ block_id b = [] ∧ source_page b = 1%Z.
Proof.
  assert (list_field doc_sparse (py "raw_text_lines")) as Hl
    by (eexists; split; [reflexivity | vm_compute; exact I]).
  assert (list_field doc_sparse (py "blocks")) as Hb
    by (eexists; split; [reflexivity | vm_compute; right; eexists; reflexivity]).
  assert (Forall (line_item_converts (RT := ascii_runtime))
            (input_items doc_sparse (py "raw_text_lines")))
    as Hli by (vm_compute; constructor).
  assert (Forall (block_item_converts (RT := ascii_runtime))
            (input_items doc_sparse (py "blocks"))) as Hbi.
  { constructor; [|constructor].
    split_and!; (eexists; split; [reflexivity|]; vm_compute; first [exact I | by eexists]). }
  split; [exact Hl|]. split; [exact Hb|]. split; [exact Hli|]. split; [exact Hbi|].
  destruct (load_coerces_defaults (RT := ascii_runtime) doc_sparse Hl Hb Hli Hbi)
    as (lines & blocks & Hload & _ & Hblocks).
  exists lines, blocks. split; [done|].
  destruct (Hblocks 0%nat _ eq_refl) as (b & Hb0 & Hid & Hpage).
  exists b. split; [done|]. split.
  - apply Hid. eexists. split; [reflexivity | vm_compute; reflexivity].
  - apply Hpage. eexists. split; [reflexivity | vm_compute; exact I].
Defined.

(** C5 fails as stated: a page that is a word is handed to [int], which
    raises, and the whole load fails. *)
Lemma load_raises_on_word_page :
  load_block_extractor_output (RT := ascii_runtime) doc_page_word = Raise ValueError.
Proof. vm_compute. reflexivity. Qed.

Lemma title_threshold_witness :
  ∃ risks,
    rule_missing (RT := ascii_runtime)
      (build_scopes [] [mkBlock (py "t1") (py "title") (py "AB") 1]) cfg_none [] = Ok risks
    ∧ count_type (py "missing_product_name") risks = 1%nat.
Proof.
  destruct (rule_missing (RT := ascii_runtime)
              (build_scopes [] [mkBlock (py "t1") (py "title") (py "AB") 1]) cfg_none [])
    as [risks|e] eqn:Hrun; [|vm_compute in Hrun; discriminate].
  exists risks. split; [reflexivity|].
  exact (proj1 (proj2 (proj2 (title_threshold (RT := ascii_runtime) _ _ _ _ _ Hrun)))
           (py "t1") 1%Z eq_refl).
Defined.

Lemma empty_document_all_missing_witness :
  load_block_extractor_output (RT := ascii_runtime) doc_empty = Ok ([], [])
  ∧ ∃ out, run_engine (RT := ascii_runtime) doc_empty cfg_none = Ok out
           ∧ risk_list out = all_missing.
Proof.
  assert (load_block_extractor_output (RT := ascii_runtime) doc_empty = Ok ([], []))
    as Hload by (vm_compute; reflexivity).
  split; [exact Hload|].
  destruct (run_engine (RT := ascii_runtime) doc_empty cfg_none) as [out|e] eqn:Hrun;
    [|vm_compute in Hrun; discriminate].
  exists out. split; [reflexivity|].
  apply (empty_document_all_missing (RT := ascii_runtime) doc_empty cfg_none [] out Hload Hrun).
  intros regexes rname rx ms Hcompile _ Hlookup _.
  vm_compute in Hcompile. injection Hcompile as <-. discriminate Hlookup.
Defined.

(** C4 fails as stated: the anchor matches the empty text, so the net-content
    signal counts as observed and no [missing_net_content] is reported. *)
Lemma empty_document_anchor_pattern :
  load_block_extractor_output (RT := ascii_runtime) doc_empty = Ok ([], [])
  ∧ ∃ out, run_engine (RT := ascii_runtime) doc_empty cfg_anchor = Ok out
           ∧ count_type (py "missing_net_content") (risk_list out) = 0%nat
           ∧ length (risk_list out) = 6%nat.
Proof.
  split; [vm_compute; reflexivity|]. eexists. split; [vm_compute; reflexivity|].
  split; vm_compute; reflexivity.
Qed.

Lemma strong_without_principal_witness :
  ∃ risks,
    rule_relationship (RT := ascii_runtime) (build_scopes [] entrust_blocks) cfg_entrust []
    = Ok risks
    ∧ length risks = 1%nat
    ∧ count_type (py "incomplete_entrust_relationship") risks = 1%nat
    ∧ count_type (py "entrusted_context_ambiguous") risks = 0%nat.
Proof.
  apply (strong_without_principal (RT := ascii_runtime) (build_scopes [] entrust_blocks)
           cfg_entrust [] (py (String "A" (String "B" (String "010" "Entrusted by Acme, Net Wt"))))
           [py "Principal"] [py "Entrusted by"] [] []);
    vm_compute; reflexivity.
Defined.

Lemma format_pages_witness :
  ∃ risks,
    rule_format (RT := ascii_runtime) (build_scopes [] back_first_blocks) cfg_net_labels []
    = Ok risks
    ∧ (page_text_raw (build_scopes [] back_first_blocks)).*1
      = first_appearance (source_page <$> back_first_blocks).
Proof.
  destruct (rule_format (RT := ascii_runtime) (build_scopes [] back_first_blocks)
              cfg_net_labels []) as [risks|e] eqn:Hrun; [|vm_compute in Hrun; discriminate].
  exists risks. split; [reflexivity|].
  exact (proj1 (format_pages_in_first_appearance_order (RT := ascii_runtime)
                  [] back_first_blocks cfg_net_labels [] risks Hrun)).
Defined.

(** C6 fails as stated: the back label (page 2) precedes the front label
    (page 1) in the input, so page 2 is the first key of the page mapping and
    its finding precedes that of page 1. *)
Lemma format_findings_not_in_page_order :
  load_block_extractor_output (RT := ascii_runtime) doc_back_first = Ok ([], back_first_blocks)
  ∧ (λ b, (block_id b, source_page b)) <$> back_first_blocks
    = [(py "back", 2%Z); (py "front", 1%Z)]
  ∧ (page_text_raw (build_scopes [] back_first_blocks)).*1 = [2%Z; 1%Z]
  ∧ ∃ risks,
      rule_format (RT := ascii_runtime) (build_scopes [] back_first_blocks) cfg_net_labels []
      = Ok risks
      ∧ (λ r, (risk_type r, ev_block_id (evidence r))) <$> risks
        = [(py "format_net_content_pattern_unusual", py "back");
           (py "format_net_content_pattern_unusual", py "front")].
Proof.
  split; [vm_compute; reflexivity|]. split; [vm_compute; reflexivity|].
  split; [vm_compute; reflexivity|]. eexists. split; vm_compute; reflexivity.
Qed.


Lemma lines_do_not_reach_the_rules_witness :
  dict_get doc_empty (py "blocks") (VList []) = dict_get doc_one_line (py "blocks") (VList [])
  ∧ load_block_extractor_output (RT := ascii_runtime) doc_empty = Ok ([], [])
  ∧ load_block_extractor_output (RT := ascii_runtime) doc_one_line
    = Ok ([mkLine (py "l1") (py "Oat milk") 1], [])
  ∧ run_engine (RT := ascii_runtime) doc_empty cfg_none
    = run_engine (RT := ascii_runtime) doc_one_line cfg_none.
Proof.
  assert (dict_get doc_empty (py "blocks") (VList [])
          = dict_get doc_one_line (py "blocks") (VList [])) as Hblocks by reflexivity.
  assert (load_block_extractor_output (RT := ascii_runtime) doc_empty = Ok ([], []))
    as Hload1 by (vm_compute; reflexivity).
  assert (load_block_extractor_output (RT := ascii_runtime) doc_one_line
          = Ok ([mkLine (py "l1") (py "Oat milk") 1], [])) as Hload2
    by (vm_compute; reflexivity).
  split; [exact Hblocks|]. split; [exact Hload1|]. split; [exact Hload2|].
  exact (proj1 (proj2 (lines_do_not_reach_the_rules (RT := ascii_runtime)
                         doc_empty doc_one_line cfg_none _ _ _ _ Hblocks Hload1 Hload2))).
Defined.

(** C10 fails as stated: the two documents have the same blocks, yet the
    first yields a risk list and the second, whose only line has a page that
    is a word, makes the run raise. *)
Lemma lines_can_make_the_run_raise :
  dict_get doc_empty (py "blocks") (VList [])
  = dict_get doc_line_page_word (py "blocks") (VList [])
  ∧ (∃ out, run_engine (RT := ascii_runtime) doc_empty cfg_none = Ok out
            ∧ risk_list out = all_missing)
  ∧ run_engine (RT := ascii_runtime) doc_line_page_word cfg_none = Raise ValueError.
Proof.
  split; [reflexivity|]. split; [|vm_compute; reflexivity].
  eexists. split; vm_compute; reflexivity.
Qed.

(** * Further properties of the engine *)

(** ** The normalizers *)

Lemma translate_fullwidth_char (c : N) :
  ∃ c', translate_char _FULLWIDTH_MAP c = [c']
        ∧ translate_char _FULLWIDTH_MAP c' = [c']
        ∧ (c < 0x80 → c' = c).
Proof.
  unfold _FULLWIDTH_MAP. cbn [translate_char].
  repeat (match goal with |- context [c =? ?k] => destruct (c =? k) eqn:? end;
          [match goal with H : (c =? _) = true |- _ => apply N.eqb_eq in H; subst c end;
           eexists; split; [reflexivity|];
           split; [vm_compute; reflexivity | vm_compute; intros Hlt; discriminate Hlt]|]).
  exists c. split; [done|]. split; [|done].
  cbn [translate_char]. by repeat match goal with H : (c =? _) = false |- _ => rewrite H; clear H end.
Qed.

Lemma to_halfwidth_cons (c : N) (s : pystr) :
  _to_halfwidth (c :: s) = translate_char _FULLWIDTH_MAP c ++ _to_halfwidth s.
Proof. reflexivity. Qed.

(** X1. Width folding replaces code point by code point: the length is kept,
    folding twice is folding once, and a text of ASCII code points (letters,
    digits, ASCII punctuation) is left untouched. *)
Theorem to_halfwidth_pointwise (s : pystr) :
  length (_to_halfwidth s) = length s
  ∧ _to_halfwidth (_to_halfwidth s) = _to_halfwidth s
  ∧ (Forall (λ c, c < 0x80) s → _to_halfwidth s = s).
Proof.
  induction s as [|c s (IHlen & IHidem & IHascii)]; [done|].
  destruct (translate_fullwidth_char c) as (c' & Hc & Hc' & Hsame).
  rewrite to_halfwidth_cons, Hc. change ([c'] ++ _to_halfwidth s) with (c' :: _to_halfwidth s).
  rewrite to_halfwidth_cons, Hc'. split_and!.
  - simpl. by rewrite IHlen.
  - simpl. by rewrite IHidem.
  - intros [Hlt Hs]%Forall_cons. rewrite (Hsame Hlt). f_equal. by apply IHascii.
Qed.

Lemma isspace_range (c : N) : isspace c = true → c ≤ 0x20 ∨ 0x85 ≤ c.
Proof.
  unfold isspace. rewrite !orb_true_iff, !andb_true_iff, !N.leb_le, !N.eqb_eq. lia.
Qed.

Lemma ascii_lower_range (c : N) :
  ascii_lower c = c ∨ (0x61 ≤ ascii_lower c ≤ 0x7A ∧ 0x41 ≤ c ≤ 0x5A).
Proof.
  unfold ascii_lower. destruct ((0x41 <=? c) && (c <=? 0x5A)) eqn:Hc; [|by left].
  apply andb_true_iff in Hc as [?%N.leb_le ?%N.leb_le]. right. lia.
Qed.

Lemma isspace_ascii_lower (c : N) : isspace (ascii_lower c) = isspace c.
Proof.
  destruct (ascii_lower_range c) as [->|[Hlow Hup]]; [done|].
  destruct (isspace (ascii_lower c)) eqn:H1; [apply isspace_range in H1; lia|].
  destruct (isspace c) eqn:H2; [apply isspace_range in H2; lia | done].
Qed.

Lemma ascii_lower_idemp (c : N) : ascii_lower (ascii_lower c) = ascii_lower c.
Proof.
  destruct (ascii_lower_range c) as [Heq|[Hlow Hup]]; [by rewrite !Heq|].
  unfold ascii_lower at 1.
  destruct ((0x41 <=? ascii_lower c) && (ascii_lower c <=? 0x5A)) eqn:Hc; [|done].
  apply andb_true_iff in Hc as [?%N.leb_le ?%N.leb_le]. lia.
Qed.

Section Whitespace.
Variable f : N → N.
Hypothesis f_space : ∀ c, isspace (f c) = isspace c.

Lemma lstrip_fmap (s : pystr) : lstrip (f <$> s) = f <$> lstrip s.
Proof.
  induction s as [|c s IH]; [done|]. rewrite fmap_cons. simpl.
  rewrite f_space. by destruct (isspace c).
Qed.

Lemma strip_fmap (s : pystr) : strip (f <$> s) = f <$> strip s.
Proof.
  unfold strip, rstrip. by rewrite lstrip_fmap, <- fmap_reverse, lstrip_fmap, fmap_reverse.
Qed.

Hypothesis f_blank : f 0x20 = 0x20.

Lemma sub_ws_fmap (b : bool) (s : pystr) : sub_ws b (f <$> s) = f <$> sub_ws b s.
Proof.
  revert b. induction s as [|c s IH]; intros b; [done|]. rewrite fmap_cons. simpl.
  rewrite f_space. destruct (isspace c), b; rewrite ?fmap_cons, ?f_blank, IH; done.
Qed.

End Whitespace.

Lemma sub_ws_idemp (s : pystr) :
  sub_ws false (sub_ws false s) = sub_ws false s
  ∧ sub_ws true (sub_ws true s) = sub_ws true s.
Proof.
  induction s as [|c s [IHf IHt]]; [done|]. simpl.
  destruct (isspace c) eqn:Hc; simpl; rewrite ?Hc; simpl.
  - split; [by rewrite IHt | done].
  - by rewrite IHf.
Qed.

Lemma lstrip_head (s : pystr) :
  lstrip s = [] ∨ ∃ c r, lstrip s = c :: r ∧ isspace c = false.
Proof.
  induction s as [|c s IH]; [by left|]. simpl.
  destruct (isspace c) eqn:Hc; [done|]. right. by exists c, s.
Qed.

Lemma lstrip_nonspace (c : N) (s : pystr) : isspace c = false → lstrip (c :: s) = c :: s.
Proof. intros Hc. simpl. by rewrite Hc. Qed.

Lemma lstrip_snoc (l : pystr) (c : N) :
  isspace c = false → lstrip (l ++ [c]) = lstrip l ++ [c].
Proof.
  intros Hc. induction l as [|a l IH]; simpl; [by rewrite Hc|].
  by destruct (isspace a).
Qed.

Lemma lstrip_spaces (pre s : pystr) :
  Forall (λ c, isspace c = true) pre → lstrip (pre ++ s) = lstrip s.
Proof. induction 1 as [|c pre Hc _ IH]; simpl; [done|]. by rewrite Hc. Qed.

Lemma rstrip_cons (c : N) (s : pystr) :
  isspace c = false → rstrip (c :: s) = c :: rstrip s.
Proof.
  intros Hc. unfold rstrip. by rewrite reverse_cons, lstrip_snoc, reverse_app.
Qed.

Lemma rstrip_snoc (l : pystr) (c : N) : isspace c = false → rstrip (l ++ [c]) = l ++ [c].
Proof.
  intros Hc. unfold rstrip. rewrite reverse_app. simpl. rewrite Hc.
  by rewrite reverse_cons, reverse_involutive.
Qed.

Lemma rstrip_spaces (s post : pystr) :
  Forall (λ c, isspace c = true) post → rstrip (s ++ post) = rstrip s.
Proof.
  intros Hpost. unfold rstrip. rewrite reverse_app, lstrip_spaces; [done|].
  by apply Forall_reverse.
Qed.

Lemma rstrip_last (s : pystr) :
  rstrip s = [] ∨ ∃ l c, rstrip s = l ++ [c] ∧ isspace c = false.
Proof.
  unfold rstrip. destruct (lstrip_head (reverse s)) as [->|(c & r & -> & Hc)]; [by left|].
  right. exists (reverse r), c. by rewrite reverse_cons.
Qed.

Lemma strip_shape (s : pystr) :
  strip s = []
  ∨ ∃ c l d, isspace c = false ∧ isspace d = false
             ∧ (strip s = [c] ∨ strip s = c :: l ++ [d]).
Proof.
  unfold strip. destruct (lstrip_head s) as [->|(c & r & -> & Hc)]; [by left|].
  right. rewrite rstrip_cons by done.
  destruct (rstrip_last r) as [->|(l & d & -> & Hd)].
  - exists c, [], c. eauto.
  - exists c, l, d. eauto.
Qed.

Lemma sub_ws_snoc (b : bool) (l : pystr) (c : N) :
  isspace c = false → sub_ws b (l ++ [c]) = sub_ws b l ++ [c].
Proof.
  intros Hc. revert b. induction l as [|a l IH]; intros b; simpl; [by rewrite Hc|].
  destruct (isspace a), b; by rewrite IH.
Qed.

Lemma strip_collapsed (s : pystr) :
  strip (sub_ws false (strip s)) = sub_ws false (strip s).
Proof.
  destruct (strip_shape s) as [->|(c & l & d & Hc & Hd & [->| ->])]; [done| |].
  - simpl. rewrite Hc. unfold strip. rewrite lstrip_nonspace by done.
    by apply (rstrip_snoc []).
  - simpl. rewrite Hc, sub_ws_snoc by done. unfold strip.
    rewrite lstrip_nonspace by done. by apply (rstrip_snoc (c :: _)).
Qed.

(** X2. The dedup-key normalizer is idempotent: a normalized snippet is its
    own normal form. *)
Theorem normalize_for_dedup_key_idempotent (snippet : pystr) :
  normalize_for_dedup_key (normalize_for_dedup_key snippet)
  = normalize_for_dedup_key snippet.
Proof.
  unfold normalize_for_dedup_key.
  rewrite (strip_fmap _ isspace_ascii_lower), strip_collapsed.
  rewrite (sub_ws_fmap _ isspace_ascii_lower eq_refl), (proj1 (sub_ws_idemp _)).
  rewrite <- list_fmap_compose. apply list_fmap_ext. intros _ c _. apply ascii_lower_idemp.
Qed.

Lemma lstrip_app (s t : pystr) :
  lstrip (s ++ t) = match lstrip s with [] => lstrip t | _ => lstrip s ++ t end.
Proof.
  induction s as [|c s IH]; simpl; [by destruct (lstrip t)|].
  by destruct (isspace c).
Qed.

Lemma lstrip_all_spaces (s : pystr) : Forall (λ c, isspace c = true) s → lstrip s = [].
Proof. intros Hs. rewrite <- (app_nil_r s). by rewrite lstrip_spaces. Qed.

Lemma strip_spaces_around (pre s post : pystr) :
  Forall (λ c, isspace c = true) pre → Forall (λ c, isspace c = true) post →
  strip (pre ++ s ++ post) = strip s.
Proof.
  intros Hpre Hpost. unfold strip. rewrite lstrip_spaces, lstrip_app by done.
  destruct (lstrip s) as [|c r] eqn:Hs.
  - by rewrite lstrip_all_spaces.
  - by rewrite rstrip_spaces.
Qed.

(** X3. The dedup key ignores ASCII letter case and whitespace around the
    snippet: lower-casing the ASCII letters of a snippet, or wrapping it in
    whitespace, does not change its normal form. *)
Theorem normalize_for_dedup_key_insensitive (snippet pre post : pystr) :
  Forall (λ c, isspace c = true) pre →
  Forall (λ c, isspace c = true) post →
  normalize_for_dedup_key (ascii_lower <$> snippet) = normalize_for_dedup_key snippet
  ∧ normalize_for_dedup_key (pre ++ snippet ++ post) = normalize_for_dedup_key snippet.
Proof.
  intros Hpre Hpost. unfold normalize_for_dedup_key. split.
  - rewrite (strip_fmap _ isspace_ascii_lower).
    rewrite (sub_ws_fmap _ isspace_ascii_lower eq_refl).
    rewrite <- list_fmap_compose. apply list_fmap_ext. intros _ c _. apply ascii_lower_idemp.
  - by rewrite strip_spaces_around.
Qed.

Lemma normalize_for_dedup_key_insensitive_witness :
  Forall (λ c, isspace c = true) (py " ")
  ∧ Forall (λ c, isspace c = true) NEWLINE
  ∧ normalize_for_dedup_key (py " " ++ py "Net  WT" ++ NEWLINE)
    = normalize_for_dedup_key (py "Net  WT").
Proof.
  assert (Forall (λ c, isspace c = true) (py " ")) as Hpre by (by repeat constructor).
  assert (Forall (λ c, isspace c = true) NEWLINE) as Hpost by (by repeat constructor).
  split; [exact Hpre|]. split; [exact Hpost|].
  exact (proj2 (normalize_for_dedup_key_insensitive (py "Net  WT") _ _ Hpre Hpost)).
Defined.

(** ** Matching primitives *)

Lemma normalize_for_match_returns {RT : PyRuntime} (s s' : pystr) (cfg : value) (r : pystr) :
  normalize_for_match s cfg = Ok r → ∃ r', normalize_for_match s' cfg = Ok r'.
Proof.
  unfold normalize_for_match. intros Hrun.
  apply bind_Ok in Hrun as (matching & -> & Hrun).
  apply bind_Ok in Hrun as (norm_cfg & Hn & Hrun). simpl. rewrite Hn. simpl.
  apply bind_Ok in Hrun as (fw & -> & Hrun).
  apply bind_Ok in Hrun as (cw & -> & Hrun).
  apply bind_Ok in Hrun as (lc & -> & Hrun). simpl. eauto.
Qed.

(** X4. Whether the match normalizer raises depends on the configuration
    alone, never on the text: if it returns for one text it returns for every
    text. On a mapping without a "matching" entry it returns the text
    unchanged. *)
Theorem normalize_for_match_total_in_text {RT : PyRuntime} (s : pystr) (cfg : value)
    (r : pystr) :
  normalize_for_match s cfg = Ok r →
  (∀ s', ∃ r', normalize_for_match s' cfg = Ok r')
  ∧ (∀ d, cfg = VDict d → assoc (py "matching") d = None → r = s).
Proof.
  intros Hrun. split.
  - intros s'. by eapply normalize_for_match_returns.
  - intros d -> Hd. unfold normalize_for_match in Hrun. simpl in Hrun.
    rewrite Hd in Hrun. simpl in Hrun. by injection Hrun as <-.
Qed.

Lemma normalize_for_match_total_in_text_witness :
  ∃ r, normalize_for_match (RT := ascii_runtime) (py "Net  WT") cfg_none = Ok r ∧ r = py "Net  WT".
Proof.
  destruct (normalize_for_match (RT := ascii_runtime) (py "Net  WT") cfg_none)
    as [r|e] eqn:Hrun; [|vm_compute in Hrun; discriminate].
  exists r. split; [reflexivity|].
  exact (proj2 (normalize_for_match_total_in_text (RT := ascii_runtime) _ _ _ Hrun)
           [] eq_refl eq_refl).
Defined.

(** X5. When the keyword test returns, it answers true exactly when some
    keyword of the list, once normalized, is not empty and occurs in the
    text. *)
Theorem intent_match_any_spec {RT : PyRuntime} (text_norm : pystr) (keywords : list pystr)
    (cfg : value) (b : bool) :
  intent_match_any text_norm keywords cfg = Ok b →
  (b = true ↔ ∃ kw kw_norm, kw ∈ keywords ∧ normalize_for_match kw cfg = Ok kw_norm
                            ∧ kw_norm ≠ [] ∧ substring kw_norm text_norm).
Proof.
  revert b. induction keywords as [|kw keywords IH]; intros b; simpl.
  - intros [= <-]. split; [done|]. by intros (? & ? & ?%elem_of_nil & _).
  - intros Hrun. apply bind_Ok in Hrun as (kw_norm & Hnorm & Hrun).
    destruct (negb (bool_decide (kw_norm = [])) && str_in kw_norm text_norm) eqn:Hhit.
    + injection Hrun as <-. split; [|done]. intros _.
      apply andb_true_iff in Hhit as [Hne Hin%str_in_substring].
      apply negb_true_iff, bool_decide_eq_false in Hne.
      exists kw, kw_norm. split; [left | done].
    + rewrite (IH _ Hrun). split.
      * intros (kw' & kn & Hkw & Hrest). exists kw', kn. split; [by right | done].
      * intros (kw' & kn & Hkw & Hkn & Hne & Hsub).
        apply elem_of_cons in Hkw as [->|Hkw]; [|by exists kw', kn].
        rewrite Hnorm in Hkn. injection Hkn as <-.
        apply andb_false_iff in Hhit as [Hhit|Hhit].
        -- apply negb_false_iff, bool_decide_eq_true in Hhit. done.
        -- apply str_in_substring in Hsub. congruence.
Qed.

Lemma intent_match_any_spec_witness :
  intent_match_any (RT := ascii_runtime) (py "Net Wt 5 g") [py "Net Vol"; py "Net Wt"] cfg_none
  = Ok true
  ∧ ∃ kw kw_norm, kw ∈ [py "Net Vol"; py "Net Wt"]
                  ∧ normalize_for_match (RT := ascii_runtime) kw cfg_none = Ok kw_norm
                  ∧ kw_norm ≠ [] ∧ substring kw_norm (py "Net Wt 5 g").
Proof.
  assert (intent_match_any (RT := ascii_runtime) (py "Net Wt 5 g")
            [py "Net Vol"; py "Net Wt"] cfg_none = Ok true) as Hrun
    by (vm_compute; reflexivity).
  split; [exact Hrun|].
  exact (proj1 (intent_match_any_spec (RT := ascii_runtime) _ _ _ _ Hrun) eq_refl).
Defined.

(** X6. Both evidence pickers return excerpts only: whatever snippet they
    return occurs verbatim in the original text. On the empty text both return
    nothing, the regex picker without consulting the matcher; a keyword that
    occurs verbatim is returned as it is, before any case-insensitive search. *)
Theorem evidence_pickers_excerpt {RT : PyRuntime} (original_text keyword : pystr)
    (cfg : value) (rx : RegexPattern) :
  (∀ snippet, pick_evidence_snippet_for_keyword original_text keyword cfg = Some snippet →
              substring snippet original_text)
  ∧ (∀ snippet, pick_evidence_snippet_for_regex original_text rx = Ok (Some snippet) →
                substring snippet original_text)
  ∧ pick_evidence_snippet_for_keyword [] keyword cfg = None
  ∧ pick_evidence_snippet_for_regex [] rx = Ok None
  ∧ (original_text ≠ [] → substring keyword original_text →
     pick_evidence_snippet_for_keyword original_text keyword cfg = Some keyword).
Proof.
  split_and!; [| |done|done|].
  - intros snippet. apply pick_evidence_keyword_substring.
  - intros snippet. unfold pick_evidence_snippet_for_regex. case_bool_decide; [done|].
    intros Hrun. apply bind_Ok in Hrun as (ms & _ & Hrun).
    destruct ms as [|[a b] ms]; [done|]. injection Hrun as <-. apply slice_substring.
  - intros Hne Hsub. unfold pick_evidence_snippet_for_keyword.
    rewrite bool_decide_eq_false_2 by done.
    apply str_find_substring in Hsub as [i ->]. done.
Qed.

(** X7. The block a page-scoped snippet is attributed to is the first block,
    in input order, that lies on the page, has text and contains the snippet;
    no block is returned exactly when no block qualifies. *)
Theorem find_block_is_first_match (blocks : list Block) (snippet : pystr) (page : Z) :
  let qualifies b :=
    source_page b = page ∧ text_raw b ≠ [] ∧ substring snippet (text_raw b) in
  match find_block_containing_snippet blocks snippet page with
  | Some bid => ∃ pre b post, blocks = pre ++ b :: post ∧ block_id b = bid
                              ∧ qualifies b ∧ Forall (λ b', ¬ qualifies b') pre
  | None => Forall (λ b', ¬ qualifies b') blocks
  end.
Proof.
  intros qualifies. induction blocks as [|b blocks IH]; simpl; [constructor|].
  destruct (bool_decide (source_page b = page) && negb (bool_decide (text_raw b = []))
            && str_in snippet (text_raw b)) eqn:Hcond.
  - apply andb_true_iff in Hcond as [Hcond Hin%str_in_substring].
    apply andb_true_iff in Hcond as [Hpage%bool_decide_eq_true Htext].
    apply negb_true_iff, bool_decide_eq_false in Htext.
    exists [], b, blocks. split_and!; done.
  - assert (¬ qualifies b) as Hb.
    { intros (Hpage & Htext & Hsub).
      rewrite (bool_decide_eq_true_2 _ Hpage), (bool_decide_eq_false_2 _ Htext) in Hcond.
      apply str_in_substring in Hsub. simpl in Hcond. congruence. }
    destruct (find_block_containing_snippet blocks snippet page) as [bid|].
    + destruct IH as (pre & b' & post & -> & Hid & Hq & Hpre).
      exists (b :: pre), b', post. split_and!; try done. by constructor.
    + by constructor.
Qed.

(** ** Loading, continued *)

(** X8. The loader is all or nothing: one item of [raw_text_lines] or of
    [blocks] that is not a mapping makes the whole load raise, whatever the
    other items are. *)
Theorem load_all_or_nothing {RT : PyRuntime} (data item : value) :
  item ∈ input_items data (py "raw_text_lines") ++ input_items data (py "blocks") →
  (∀ d, item ≠ VDict d) →
  ∃ e, load_block_extractor_output data = Raise e.
Proof.
  intros Hin Hitem.
  destruct (load_block_extractor_output data) as [[lines blocks]|e] eqn:Hload; [|eauto].
  exfalso. apply load_output_inv in Hload as [Hl Hb]. apply load_all_Ok in Hl, Hb.
  apply elem_of_app in Hin as [Hin|Hin]; apply list_elem_of_lookup in Hin as [i Hi].
  - destruct (Forall2_lookup_l _ _ _ _ _ Hl Hi) as (ln & _ & Hok).
    destruct item; try discriminate Hok. by eapply Hitem.
  - destruct (Forall2_lookup_l _ _ _ _ _ Hb Hi) as (b & _ & Hok).
    destruct item; try discriminate Hok. by eapply Hitem.
Qed.

Lemma load_all_or_nothing_witness :
  VInt 7 ∈ input_items doc_stray_item (py "raw_text_lines")
           ++ input_items doc_stray_item (py "blocks")
  ∧ ∃ e, load_block_extractor_output (RT := ascii_runtime) doc_stray_item = Raise e.
Proof.
  assert (VInt 7 ∈ input_items doc_stray_item (py "raw_text_lines")
                   ++ input_items doc_stray_item (py "blocks")) as Hin
    by (apply (list_elem_of_lookup_2 _ 1%nat); vm_compute; reflexivity).
  split; [exact Hin|].
  apply (load_all_or_nothing (RT := ascii_runtime) doc_stray_item (VInt 7) Hin).
  intros d Hd. discriminate Hd.
Defined.

(** X9. A load that returns keeps every item in its place: there are as many
    lines and blocks as items, and a block item whose id, type and text are
    strings and whose page is an integer other than 0 is loaded at the same
    position with exactly these values (the text is neither trimmed nor
    normalized, the page is kept even when negative). *)
Theorem load_keeps_items_in_place {RT : PyRuntime} (data : value) (lines : list Line)
    (blocks : list Block) :
  load_block_extractor_output data = Ok (lines, blocks) →
  length lines = length (input_items data (py "raw_text_lines"))
  ∧ length blocks = length (input_items data (py "blocks"))
  ∧ ∀ i d bid bty txt n,
      input_items data (py "blocks") !! i = Some (VDict d) →
      assoc (py "block_id") d = Some (VStr bid) →
      assoc (py "block_type") d = Some (VStr bty) →
      assoc (py "text_raw") d = Some (VStr txt) →
      assoc (py "source_page") d = Some (VInt n) → n ≠ 0%Z →
      blocks !! i = Some (mkBlock bid bty txt n).
Proof.
  intros Hload. apply load_output_inv in Hload as [Hl Hb]. apply load_all_Ok in Hl, Hb.
  split; [symmetry; by eapply Forall2_length|].
  split; [symmetry; by eapply Forall2_length|].
  intros i d bid bty txt n Hi Hbid Hbty Htxt Hpage Hn.
  destruct (Forall2_lookup_l _ _ _ _ _ Hb Hi) as (b & -> & Hok). f_equal.
  unfold load_block in Hok. simpl in Hok. rewrite Hbid, Hbty, Htxt, Hpage in Hok.
  unfold py_or in Hok. simpl in Hok.
  destruct (Z.eqb_spec n 0); [done|]. simpl in Hok. by injection Hok as <-.
Qed.

Lemma load_keeps_items_in_place_witness :
  load_block_extractor_output (RT := ascii_runtime) doc_back_first = Ok ([], back_first_blocks)
  ∧ length back_first_blocks = length (input_items doc_back_first (py "blocks")).
Proof.
  assert (load_block_extractor_output (RT := ascii_runtime) doc_back_first
          = Ok ([], back_first_blocks)) as Hload by (vm_compute; reflexivity).
  split; [exact Hload|].
  exact (proj1 (proj2 (load_keeps_items_in_place (RT := ascii_runtime) _ _ _ Hload))).
Defined.

(** ** Scopes, continued *)

Lemma page_text_step_lookup (d : list (Z * pystr)) (b : Block) (p : Z) :
  dict_lookup p (page_text_step d b)
  = if decide (p = source_page b)
    then Some (default [] (dict_lookup p d)
               ++ if bool_decide (text_raw b = []) then [] else text_raw b ++ NEWLINE)
    else dict_lookup p d.
Proof.
  unfold page_text_step. destruct (decide (p = source_page b)) as [->|Hne].
  - destruct (dict_lookup (source_page b) d) as [old|] eqn:Hold.
    + case_bool_decide; [by rewrite Hold, app_nil_r|].
      by rewrite dict_lookup_set, decide_True, Hold by done.
    + case_bool_decide; [by rewrite dict_lookup_set, decide_True|].
      by rewrite !dict_lookup_set, !decide_True by done.
  - destruct (dict_lookup (source_page b) d) as [old|] eqn:Hold;
      case_bool_decide; rewrite ?dict_lookup_set, ?decide_False by done; done.
Qed.

Lemma page_text_lookup (bs : list Block) (d : list (Z * pystr)) (p : Z) :
  dict_lookup p (foldl page_text_step d bs)
  = let added := concat ((λ b, text_raw b ++ NEWLINE)
                           <$> filter (λ b, source_page b = p ∧ text_raw b ≠ []) bs) in
    match dict_lookup p d with
    | Some old => Some (old ++ added)
    | None => if decide (p ∈ source_page <$> bs) then Some added else None
    end.
Proof.
  revert d. induction bs as [|b bs IH]; intros d; cbn [foldl]; cbv zeta.
  - rewrite filter_nil, !fmap_nil. simpl concat.
    destruct (dict_lookup p d); [by rewrite app_nil_r|].
    by rewrite decide_False by apply not_elem_of_nil.
  - rewrite IH, page_text_step_lookup. cbv zeta. rewrite filter_cons, (fmap_cons source_page).
    destruct (decide (p = source_page b)) as [->|Hne].
    + rewrite (decide_True (P := source_page b ∈ _ :: _)) by left.
      case_bool_decide as Htxt.
      * rewrite (decide_False (P := _ ∧ _)) by tauto. rewrite app_nil_r.
        by destruct (dict_lookup (source_page b) d).
      * rewrite (decide_True (P := _ ∧ _)) by done. rewrite fmap_cons. simpl concat.
        destruct (dict_lookup (source_page b) d); simpl; by rewrite <- ?app_assoc.
    + rewrite (decide_False (P := _ ∧ _)) by (intros [? _]; congruence).
      destruct (dict_lookup p d); [done|].
      destruct (decide (p ∈ source_page <$> bs)) as [Hin|Hout].
      * by rewrite decide_True by by right.
      * rewrite decide_False; [done|]. by intros [?|?]%elem_of_cons.
Qed.

(** X10. The text of a page is the texts of the blocks of that page that are
    not empty, in input order, each followed by a newline; a page has an entry
    exactly when some block, empty or not, lies on it. *)
Theorem page_text_is_concatenation (lines : list Line) (blocks : list Block) (p : Z) :
  dict_lookup p (page_text_raw (build_scopes lines blocks))
  = if decide (p ∈ source_page <$> blocks)
    then Some (concat ((λ b, text_raw b ++ NEWLINE)
                         <$> filter (λ b, source_page b = p ∧ text_raw b ≠ []) blocks))
    else None.
Proof. unfold build_scopes. cbn [page_text_raw]. by rewrite page_text_lookup. Qed.

Lemma substring_concat (x : pystr) (xs : list pystr) : x ∈ xs → substring x (concat xs).
Proof.
  intros (l1 & l2 & ->)%list_elem_of_split. exists (concat l1), (concat l2).
  by rewrite concat_app.
Qed.

Lemma substring_join (sep x : pystr) (xs : list pystr) : x ∈ xs → substring x (join sep xs).
Proof.
  induction xs as [|y xs IH]; [by intros ?%elem_of_nil|].
  intros Hin. destruct xs as [|z xs].
  - apply list_elem_of_singleton in Hin as ->. exists [], []. by rewrite app_nil_r.
  - apply elem_of_cons in Hin as [->|Hin].
    + exists [], (sep ++ join sep (z :: xs)). done.
    + destruct (IH Hin) as (pre & post & Heq).
      exists (y ++ sep ++ pre), post. change (join sep (y :: z :: xs))
        with (y ++ sep ++ join sep (z :: xs)). rewrite Heq. by rewrite <- !app_assoc.
Qed.

(** X11. Every block with text is visible in both matching scopes: its
    original text occurs verbatim in the whole-document text, and, followed by
    a newline, in the text of its page. *)
Theorem block_text_in_scopes (lines : list Line) (blocks : list Block) (b : Block) :
  b ∈ blocks → text_raw b ≠ [] →
  substring (text_raw b) (global_text_raw (build_scopes lines blocks))
  ∧ ∃ raw, dict_lookup (source_page b) (page_text_raw (build_scopes lines blocks)) = Some raw
           ∧ substring (text_raw b ++ NEWLINE) raw.
Proof.
  intros Hb Htxt. split.
  - simpl. apply substring_join. apply list_elem_of_fmap. exists b. split; [done|].
    by apply list_elem_of_filter.
  - unfold build_scopes. cbn [page_text_raw]. rewrite page_text_lookup. cbn [dict_lookup].
    rewrite decide_True by (apply list_elem_of_fmap; eauto).
    eexists. split; [done|]. apply substring_concat.
    apply list_elem_of_fmap. exists b. split; [done|]. by apply list_elem_of_filter.
Qed.

Lemma block_text_in_scopes_witness :
  mkBlock (py "front") (py "other") (py "Net Wt") 1 ∈ back_first_blocks
  ∧ substring (py "Net Wt") (global_text_raw (build_scopes [] back_first_blocks)).
Proof.
  assert (mkBlock (py "front") (py "other") (py "Net Wt") 1 ∈ back_first_blocks) as Hin
    by (apply (list_elem_of_lookup_2 _ 1%nat); reflexivity).
  split; [exact Hin|].
  refine (proj1 (block_text_in_scopes [] back_first_blocks _ Hin _)).
  vm_compute. discriminate.
Defined.

Lemma by_type_lookup_opt (bs : list Block) (d : list (pystr * list Block)) (bt : pystr) :
  dict_lookup bt (foldl by_type_step d bs)
  = match filter (λ b, block_type b = bt) bs with
    | [] => dict_lookup bt d
    | found => Some (default [] (dict_lookup bt d) ++ found)
    end.
Proof.
  revert d. induction bs as [|b bs IH]; intros d; simpl; [done|].
  rewrite IH. unfold by_type_step at 1 2. rewrite dict_lookup_set, filter_cons.
  destruct (decide (block_type b = bt)) as [<-|Hne].
  - rewrite decide_True by done. simpl.
    destruct (filter _ bs); by rewrite <- ?app_assoc.
  - by rewrite decide_False by done.
Qed.

(** X12. The block-type index groups the blocks by type without losing or
    reordering any: looking a type up gives exactly the blocks of that type
    in input order, there is no entry for a type no block has, and the type
    test of the missing-field rules holds exactly for the types that occur. *)
Theorem blocks_by_type_groups (lines : list Line) (blocks : list Block) (bt : pystr) :
  default [] (dict_lookup bt (blocks_by_type (build_scopes lines blocks)))
  = filter (λ b, block_type b = bt) blocks
  ∧ (dict_lookup bt (blocks_by_type (build_scopes lines blocks)) = None
     ↔ ∀ b, b ∈ blocks → block_type b ≠ bt)
  ∧ (has_block_type (build_scopes lines blocks) bt = true
     ↔ ∃ b, b ∈ blocks ∧ block_type b = bt).
Proof.
  split; [apply blocks_of_type|]. split.
  - simpl. rewrite by_type_lookup_opt. simpl.
    destruct (filter (λ b, block_type b = bt) blocks) as [|b0 l] eqn:Hf.
    + split; [|done]. intros _ b Hb Hty.
      assert (b ∈ filter (λ b, block_type b = bt) blocks) as Hin
        by by apply list_elem_of_filter.
      rewrite Hf in Hin. by apply elem_of_nil in Hin.
    + split; [done|]. intros Hall. exfalso.
      assert (b0 ∈ filter (λ b, block_type b = bt) blocks) as Hin by (rewrite Hf; left).
      apply list_elem_of_filter in Hin as [Hty Hin]. by eapply Hall.
  - unfold has_block_type. rewrite blocks_of_type, bool_decide_eq_true. split.
    + destruct (filter (λ b, block_type b = bt) blocks) as [|b0 l] eqn:Hf; [simpl; lia|].
      intros _. exists b0.
      assert (b0 ∈ filter (λ b, block_type b = bt) blocks) as Hin by (rewrite Hf; left).
      apply list_elem_of_filter in Hin as [Hty Hin]. done.
    + intros (b & Hb & Hty).
      assert (b ∈ filter (λ b, block_type b = bt) blocks) as Hin
        by by apply list_elem_of_filter.
      destruct (filter (λ b, block_type b = bt) blocks); [by apply elem_of_nil in Hin|].
      simpl. lia.
Qed.

Lemma block_text_lookup (bs : list Block) (d : list (pystr * pystr)) (bid : pystr) :
  dict_lookup bid (foldl (λ d b, dict_set (block_id b) (text_raw b) d) d bs)
  = match last (filter (λ b, block_id b = bid) bs) with
    | Some b => Some (text_raw b)
    | None => dict_lookup bid d
    end.
Proof.
  revert d. induction bs as [|b bs IH]; intros d; simpl; [done|].
  rewrite IH, filter_cons, dict_lookup_set.
  destruct (decide (block_id b = bid)) as [<-|Hne].
  - rewrite decide_True by done.
    destruct (filter (λ b0, block_id b0 = block_id b) bs) as [|b1 l] eqn:Hf; [done|].
    rewrite last_cons_cons. destruct (last (b1 :: l)) eqn:Hl; [done|].
    by apply last_None in Hl.
  - by rewrite decide_False by done.
Qed.

(** X13. In the block-text index a block id that occurs more than once keeps
    the text of the last block that carries it; an id no block carries has no
    entry. *)
Theorem block_text_last_wins (lines : list Line) (blocks : list Block) (bid : pystr) :
  dict_lookup bid (block_text_raw (build_scopes lines blocks))
  = text_raw <$> last (filter (λ b, block_id b = bid) blocks).
Proof.
  simpl. rewrite block_text_lookup.
  by destruct (last (filter (λ b, block_id b = bid) blocks)).
Qed.

(** ** The pattern dictionary *)

Lemma compile_fold_sound (P : pystr → RegexPattern → Prop)
    (entries : list (pystr * value)) (out0 out : list (pystr * RegexPattern)) :
  (∀ rname meta pat fl flags_list,
     (rname, meta) ∈ entries → dict_get meta (py "pattern") VNone = Ok pat →
     truthy pat = true → dict_get meta (py "flags") (VList []) = Ok fl →
     py_iter (py_or fl (VList [])) = Ok flags_list →
     P rname (mkRegexPattern rname pat
                (foldl (λ acc flg, Z.lor acc (flag_bit flg)) 0%Z flags_list))) →
  (∀ rname rx, dict_lookup rname out0 = Some rx → P rname rx) →
  fold_result compile_step out0 entries = Ok out →
  ∀ rname rx, dict_lookup rname out = Some rx → P rname rx.
Proof.
  revert out0. induction entries as [|[rname0 meta] entries IH]; intros out0 Hstep H0 Hrun.
  - simpl in Hrun. by injection Hrun as <-.
  - simpl in Hrun. apply bind_Ok in Hrun as (out1 & Hone & Hrun).
    eapply IH; [| |exact Hrun].
    + intros. eapply Hstep; eauto. by right.
    + apply bind_Ok in Hone as (pat & Hpat & Hone).
      destruct (truthy pat) eqn:Htruthy; [|by injection Hone as <-].
      apply bind_Ok in Hone as (fl & Hfl & Hone).
      apply bind_Ok in Hone as (flags_list & Hiter & Hone). injection Hone as <-.
      intros rname rx. rewrite dict_lookup_set. case_decide as Hname; [|by apply H0].
      intros [= <-]. subst rname. eapply Hstep; eauto. left.
Qed.

(** X14. Compilation keeps only entries that have a pattern: every compiled
    pattern is stored under the name of a configured entry, carries that name
    and that entry's pattern, and the pattern is never absent, null or
    empty. *)
Theorem compile_regexes_sound (cfg : value) (regexes : list (pystr * RegexPattern))
    (rname : pystr) (rx : RegexPattern) :
  compile_regexes cfg = Ok regexes →
  dict_lookup rname regexes = Some rx →
  name rx = rname
  ∧ truthy (pattern rx) = true
  ∧ ∃ section entries meta,
      dict_get cfg (py "regex") (VDict []) = Ok section
      ∧ dict_items (py_or section (VDict [])) = Ok entries
      ∧ (rname, meta) ∈ entries
      ∧ dict_get meta (py "pattern") VNone = Ok (pattern rx).
Proof.
  unfold compile_regexes. intros Hrun Hlookup.
  apply bind_Ok in Hrun as (section & Hsection & Hrun).
  apply bind_Ok in Hrun as (entries & Hentries & Hrun).
  revert rname rx Hlookup.
  eapply (compile_fold_sound
            (λ rname rx, name rx = rname ∧ truthy (pattern rx) = true
                         ∧ ∃ section entries meta,
                             dict_get cfg (py "regex") (VDict []) = Ok section
                             ∧ dict_items (py_or section (VDict [])) = Ok entries
                             ∧ (rname, meta) ∈ entries
                             ∧ dict_get meta (py "pattern") VNone = Ok (pattern rx)));
    [| |exact Hrun].
  - intros rname meta pat fl flags_list Hin Hpat Htruthy _ _. simpl.
    split; [done|]. split; [done|]. by exists section, entries, meta.
  - by intros rname rx.
Qed.

Lemma compile_regexes_sound_witness :
  ∃ rx, compile_regexes cfg_anchor = Ok [(py "net_content_value", rx)]
        ∧ dict_lookup (py "net_content_value") [(py "net_content_value", rx)] = Some rx
        ∧ name rx = py "net_content_value" ∧ truthy (pattern rx) = true.
Proof.
  exists (mkRegexPattern (py "net_content_value") (VStr (py "^")) 0).
  assert (compile_regexes cfg_anchor
          = Ok [(py "net_content_value",
                 mkRegexPattern (py "net_content_value") (VStr (py "^")) 0)]) as Hrun
    by (vm_compute; reflexivity).
  split; [exact Hrun|]. split; [reflexivity|].
  destruct (compile_regexes_sound cfg_anchor _ (py "net_content_value") _ Hrun eq_refl)
    as (Hname & Htruthy & _).
  split; [exact Hname | exact Htruthy].
Defined.

Lemma flags_fold_testbit (flags_list : list value) (acc : Z) (n : Z) :
  Z.testbit (foldl (λ acc flg, Z.lor acc (flag_bit flg)) acc flags_list) n
  = Z.testbit acc n || existsb (λ flg, Z.testbit (flag_bit flg) n) flags_list.
Proof.
  revert acc. induction flags_list as [|flg flags_list IH]; intros acc; simpl.
  - by rewrite orb_false_r.
  - by rewrite IH, Z.lor_spec, orb_assoc.
Qed.

Lemma flag_bit_testbit (flg : value) (n : Z) :
  Z.testbit (flag_bit flg) n = true
  ↔ (flg = VStr (py "IGNORECASE") ∧ n = 1%Z) ∨ (flg = VStr (py "MULTILINE") ∧ n = 3%Z)
    ∨ (flg = VStr (py "DOTALL") ∧ n = 4%Z).
Proof.
  assert (∀ k, (0 ≤ k)%Z → Z.testbit (2 ^ k) n = true ↔ n = k) as Hpow.
  { intros k Hk. rewrite Z.pow2_bits_eqb by done. rewrite Z.eqb_eq. naive_solver. }
  destruct flg; simpl; try (rewrite Z.bits_0; naive_solver).
  repeat case_bool_decide; subst.
  - change 2%Z with (2 ^ 1)%Z. rewrite Hpow by lia. naive_solver.
  - change 8%Z with (2 ^ 3)%Z. rewrite Hpow by lia. naive_solver.
  - change 16%Z with (2 ^ 4)%Z. rewrite Hpow by lia. naive_solver.
  - rewrite Z.bits_0. naive_solver.
Qed.

(** X15. The flags of a compiled pattern are the union of the recognized
    tokens of its flag list: bit 1 is set exactly when "IGNORECASE" occurs,
    bit 3 when "MULTILINE" and bit 4 when "DOTALL" occurs, and no other bit is
    ever set; unknown tokens, repetitions and the order of the list do not
    matter. *)
Theorem compile_step_flags (out : list (pystr * RegexPattern)) (rname : pystr)
    (meta pat fl : value) (flags_list : list value) :
  dict_get meta (py "pattern") VNone = Ok pat →
  truthy pat = true →
  dict_get meta (py "flags") (VList []) = Ok fl →
  py_iter (py_or fl (VList [])) = Ok flags_list →
  ∃ out' rx,
    compile_step out (rname, meta) = Ok out'
    ∧ dict_lookup rname out' = Some rx
    ∧ pattern rx = pat
    ∧ ∀ n, Z.testbit (flags rx) n = true
           ↔ (n = 1%Z ∧ VStr (py "IGNORECASE") ∈ flags_list)
             ∨ (n = 3%Z ∧ VStr (py "MULTILINE") ∈ flags_list)
             ∨ (n = 4%Z ∧ VStr (py "DOTALL") ∈ flags_list).
Proof.
  intros Hpat Htruthy Hfl Hiter. unfold compile_step. rewrite Hpat. simpl.
  rewrite Htruthy, Hfl. simpl. rewrite Hiter. simpl.
  eexists _, _. split; [done|]. rewrite dict_lookup_set, decide_True by done.
  split; [done|]. split; [done|]. intros n. simpl.
  rewrite flags_fold_testbit, Z.bits_0, orb_false_l, existsb_exists. split.
  - intros (flg & Hin%list_elem_of_In & Hbit). apply flag_bit_testbit in Hbit.
    naive_solver.
  - intros Hcases. 
    destruct Hcases as [[-> Hin]|[[-> Hin]|[-> Hin]]];
      (eexists; split; [by apply list_elem_of_In|]); apply flag_bit_testbit; naive_solver.
Qed.

Lemma compile_step_flags_witness :
  ∃ out' rx,
    compile_step [] (py "sc_code",
                     VDict [(py "pattern", VStr (py "SC"));
                            (py "flags", VList [VStr (py "IGNORECASE"); VStr (py "VERBOSE")])])
    = Ok out'
    ∧ dict_lookup (py "sc_code") out' = Some rx
    ∧ Z.testbit (flags rx) 1 = true.
Proof.
  destruct (compile_step_flags [] (py "sc_code")
              (VDict [(py "pattern", VStr (py "SC"));
                      (py "flags", VList [VStr (py "IGNORECASE"); VStr (py "VERBOSE")])])
              (VStr (py "SC")) (VList [VStr (py "IGNORECASE"); VStr (py "VERBOSE")])
              [VStr (py "IGNORECASE"); VStr (py "VERBOSE")]
              eq_refl eq_refl eq_refl eq_refl)
    as (out' & rx & Hstep & Hlookup & _ & Hbits).
  exists out', rx. split; [exact Hstep|]. split; [exact Hlookup|].
  apply Hbits. left. split; [reflexivity | left].
Defined.

Lemma strip_nil_inv (s : pystr) : strip s ≠ [] → s ≠ [].
Proof. by intros Hs ->. Qed.

(** X16. No keyword returned for an intent is empty or made of whitespace
    only. When the configuration is a mapping without "intents", or its
    "intents" is a mapping without the intent asked for, the list is empty and
    nothing is raised. *)
Theorem get_intent_keywords_nonblank {RT : PyRuntime} (cfg : value) (intent_name : pystr) :
  (∀ kws, get_intent_keywords cfg intent_name = Ok kws →
          Forall (λ kw, kw ≠ [] ∧ strip kw ≠ []) kws)
  ∧ (∀ d, cfg = VDict d → assoc (py "intents") d = None →
          get_intent_keywords cfg intent_name = Ok [])
  ∧ (∀ d intents, cfg = VDict d → assoc (py "intents") d = Some (VDict intents) →
                  assoc intent_name intents = None →
                  get_intent_keywords cfg intent_name = Ok []).
Proof.
  split_and!.
  - intros kws Hrun. unfold get_intent_keywords in Hrun.
    apply bind_Ok in Hrun as (i & _ & Hrun). apply bind_Ok in Hrun as (e & _ & Hrun).
    apply bind_Ok in Hrun as (k & _ & Hrun). apply bind_Ok in Hrun as (entries & _ & Hrun).
    apply bind_Ok in Hrun as (strs & _ & Hrun). injection Hrun as <-. apply Forall_forall.
    intros kw [Hkw _]%list_elem_of_filter. split; [by apply strip_nil_inv | done].
  - intros d -> Hd. unfold get_intent_keywords. simpl. by rewrite Hd.
  - intros d intents -> Hd Hi. unfold get_intent_keywords. simpl. rewrite Hd. simpl.
    unfold py_or at 1. destruct (truthy (VDict intents)); simpl; [by rewrite Hi | done].
Qed.

(** ** The rule families *)

Lemma sublist_append_unless (observed : bool) (r : Risk) (l l' : list Risk) :
  sublist l l' → sublist (append_unless observed r l) (l' ++ [r]).
Proof.
  intros Hsub. unfold append_unless. destruct observed.
  - rewrite <- (app_nil_r l). by apply sublist_app; [|apply sublist_nil_l].
  - by apply sublist_app.
Qed.

Lemma rule_missing_sublist {RT : PyRuntime} (scopes : Scopes) (cfg : value)
    (regexes : list (pystr * RegexPattern)) (risks : list Risk) :
  rule_missing scopes cfg regexes = Ok risks → sublist risks all_missing.
Proof.
  unfold rule_missing. intros Hrun. inv_bind Hrun. injection Hrun as <-.
  change all_missing
    with ((((((([] ++ [risk_missing_net_content]) ++ [risk_missing_product_name])
               ++ [risk_missing_ingredient_list]) ++ [risk_missing_manufacturer_info])
             ++ [risk_missing_date_shelf_life]) ++ [risk_missing_standard_code])
           ++ [risk_missing_production_license]).
  repeat apply sublist_append_unless. done.
Qed.

Lemma all_missing_types_NoDup : NoDup (risk_type <$> all_missing).
Proof. apply (bool_decide_unpack (NoDup (risk_type <$> all_missing))). by vm_compute. Qed.

(** X17. The missing-field family reports each of its seven findings at most
    once and always in the same order: whatever it returns is a subsequence
    of the seven findings in production order, each with evidence "N/A". *)
Theorem rule_missing_subsequence {RT : PyRuntime} (scopes : Scopes) (cfg : value)
    (regexes : list (pystr * RegexPattern)) (risks : list Risk) :
  rule_missing scopes cfg regexes = Ok risks →
  sublist risks all_missing
  ∧ (length risks ≤ 7)%nat
  ∧ NoDup (risk_type <$> risks)
  ∧ Forall (λ r, evidence r = mkEvidence NA NA) risks.
Proof.
  intros Hsub%rule_missing_sublist.
  split; [done|]. split; [by apply sublist_length in Hsub|]. split.
  - eapply sublist_NoDup; [apply all_missing_types_NoDup | by apply fmap_sublist].
  - apply Forall_forall. intros r Hr. eapply elem_of_sublist in Hr; [|exact Hsub].
    revert r Hr. apply Forall_forall. by repeat constructor.
Qed.

Lemma rule_missing_subsequence_witness :
  ∃ risks, rule_missing (RT := ascii_runtime) (build_scopes [] entrust_blocks) cfg_entrust []
           = Ok risks
           ∧ sublist risks all_missing ∧ length risks = 5%nat.
Proof.
  destruct (rule_missing (RT := ascii_runtime) (build_scopes [] entrust_blocks)
              cfg_entrust []) as [risks|e] eqn:Hrun; [|vm_compute in Hrun; discriminate].
  exists risks. split; [reflexivity|].
  split; [exact (proj1 (rule_missing_subsequence (RT := ascii_runtime) _ _ _ _ Hrun))|].
  vm_compute in Hrun. by injection Hrun as <-.
Defined.

Lemma or_else_true_r (a : result bool) (x : bool) :
  or_else a (Ok true) = Ok x → x = true.
Proof.
  unfold or_else. intros Hrun. apply bind_Ok in Hrun as ([] & _ & Hrun); by injection Hrun.
Qed.

Lemma or_else_true_r2 (a c : result bool) (x : bool) :
  or_else a (or_else (Ok true) c) = Ok x → x = true.
Proof. apply or_else_true_r. Qed.

(** X18. A block of the matching type counts as the field observed, whatever
    its text: when the evaluator returns and the document has an ingredient,
    producer, date_shelf_life, standard or license block, the corresponding
    missing-field finding is not reported. *)
Theorem block_type_counts_as_observed {RT : PyRuntime} (lines : list Line)
    (blocks : list Block) (cfg : value) (regexes : list (pystr * RegexPattern))
    (risks : list Risk) (bt rt : pystr) :
  rule_missing (build_scopes lines blocks) cfg regexes = Ok risks →
  (bt, rt) ∈ [ (py "ingredient", py "missing_ingredient_list");
               (py "producer", py "missing_manufacturer_info");
               (py "date_shelf_life", py "missing_date_shelf_life");
               (py "standard", py "missing_standard_code");
               (py "license", py "missing_production_license") ] →
  (∃ b, b ∈ blocks ∧ block_type b = bt) →
  count_type rt risks = 0%nat.
Proof.
  intros Hrun Hpair (b & Hb & Hty).
  assert (has_block_type (build_scopes lines blocks) bt = true) as Hbt.
  { unfold has_block_type. rewrite blocks_of_type. apply bool_decide_eq_true.
    assert (b ∈ filter (λ b, block_type b = bt) blocks) as Hin
      by by apply list_elem_of_filter.
    destruct (filter (λ b, block_type b = bt) blocks); [by apply elem_of_nil in Hin|].
    simpl. lia. }
  unfold rule_missing in Hrun. inv_bind Hrun. injection Hrun as <-.
  rewrite !count_type_append_unless.
  repeat (apply elem_of_cons in Hpair as [[= -> ->]|Hpair];
          [rewrite Hbt in *;
           repeat match goal with
                  | H : or_else _ (Ok true) = Ok ?x |- _ =>
                      apply or_else_true_r in H; subst x
                  | H : or_else _ (or_else (Ok true) _) = Ok ?x |- _ =>
                      apply or_else_true_r2 in H; subst x
                  end;
           destruct (title_ok (build_scopes lines blocks));
           repeat match goal with x : bool |- _ => destruct x end; reflexivity|]).
  by apply elem_of_nil in Hpair.
Qed.

Lemma block_type_counts_as_observed_witness :
  ∃ risks, rule_missing (RT := ascii_runtime) (build_scopes [] entrust_blocks) cfg_entrust []
           = Ok risks
           ∧ count_type (py "missing_manufacturer_info") risks = 0%nat.
Proof.
  destruct (rule_missing (RT := ascii_runtime) (build_scopes [] entrust_blocks)
              cfg_entrust []) as [risks|e] eqn:Hrun; [|vm_compute in Hrun; discriminate].
  exists risks. split; [reflexivity|].
  apply (block_type_counts_as_observed (RT := ascii_runtime) [] entrust_blocks cfg_entrust
           [] risks (py "producer") _ Hrun).
  - right. left.
  - eexists. split; [apply (list_elem_of_lookup_2 _ 1%nat); reflexivity | reflexivity].
Defined.

Section Families.
Context {RT : PyRuntime}.

Lemma or_NA_nonempty (o : option pystr) : or_NA o ≠ [].
Proof. unfold or_NA. by destruct o as [[|c s]|]. Qed.

Lemma opt_truthy_default (o : option pystr) : opt_truthy o = true → default [] o ≠ [].
Proof. by destruct o as [[|c s]|]. Qed.

(** Closes the case in which a step returned no finding. *)
Ltac no_finding H := injection H as <-; split; [simpl; lia | constructor].

Lemma unit_case_check_shape (scopes : Scopes) (rx_a rx_b rx_ev : option RegexPattern)
    (fallback logic : pystr) (page : Z) (raw : pystr) (risks : list Risk) :
  unit_case_check scopes rx_a rx_b rx_ev fallback logic page raw = Ok risks →
  (length risks ≤ 1)%nat ∧ Forall (well_formed_finding format_risk_types) risks.
Proof.
  unfold unit_case_check. intros Hrun.
  apply bind_Ok in Hrun as (has_a & _ & Hrun).
  apply bind_Ok in Hrun as (has_b & _ & Hrun).
  destruct (has_a && has_b); [|no_finding Hrun].
  apply bind_Ok in Hrun as (snippet & _ & Hrun).
  destruct (opt_truthy snippet) eqn:Hsn; [|no_finding Hrun]. injection Hrun as <-.
  split; [simpl; lia|]. constructor; [|done]. split_and!; [left | done |].
  by apply opt_truthy_default.
Qed.

Lemma label_risk_shape (scopes : Scopes) (cfg : value) (kws : list pystr)
    (fallback rtype description logic : pystr) (page : Z) (raw : pystr) (b : bool)
    (risks : list Risk) :
  fallback ≠ [] → rtype ∈ format_risk_types →
  (if b then Ok [label_risk scopes cfg kws fallback rtype description logic page raw]
   else Ok []) = Ok risks →
  (length risks ≤ 1)%nat ∧ Forall (well_formed_finding format_risk_types) risks.
Proof.
  intros Hfallback Hty. destruct b; intros Hrun; [|no_finding Hrun]. injection Hrun as <-.
  split; [simpl; lia|]. constructor; [|done]. split_and!; [done..|].
  unfold label_risk. simpl.
  destruct (opt_truthy (first_keyword_snippet raw kws cfg)) eqn:Hsn; [|done].
  by apply opt_truthy_default.
Qed.

Lemma format_unit_case_page_shape (scopes : Scopes)
    (rx1 rx2 rx3 rx4 : option RegexPattern) (entry : Z * pystr) (risks : list Risk) :
  format_unit_case_page scopes rx1 rx2 rx3 rx4 entry = Ok risks →
  (length risks ≤ 2)%nat ∧ Forall (well_formed_finding format_risk_types) risks.
Proof.
  destruct entry as [page raw]. unfold format_unit_case_page. intros Hrun.
  apply bind_Ok in Hrun as (ml & [Hml1 Hml2]%unit_case_check_shape & Hrun).
  apply bind_Ok in Hrun as (l & [Hl1 Hl2]%unit_case_check_shape & Hrun).
  injection Hrun as <-. rewrite length_app. split; [lia | by apply Forall_app].
Qed.

Lemma format_net_content_page_shape (scopes : Scopes) (cfg : value) (kws : list pystr)
    (rx1 rx2 : option RegexPattern) (entry : Z * pystr) (risks : list Risk) :
  format_net_content_page scopes cfg kws rx1 rx2 entry = Ok risks →
  (length risks ≤ 1)%nat ∧ Forall (well_formed_finding format_risk_types) risks.
Proof.
  destruct entry as [page raw]. unfold format_net_content_page. intros Hrun.
  inv_bind Hrun. eapply label_risk_shape; [| |exact Hrun]; [done | right; left].
Qed.

Lemma format_standard_code_page_shape (scopes : Scopes) (cfg : value) (kws : list pystr)
    (rx : option RegexPattern) (entry : Z * pystr) (risks : list Risk) :
  format_standard_code_page scopes cfg kws rx entry = Ok risks →
  (length risks ≤ 1)%nat ∧ Forall (well_formed_finding format_risk_types) risks.
Proof.
  destruct entry as [page raw]. unfold format_standard_code_page. intros Hrun.
  inv_bind Hrun. eapply label_risk_shape; [| |exact Hrun]; [done | right; right; left].
Qed.

Lemma format_license_code_page_shape (scopes : Scopes) (cfg : value) (kws : list pystr)
    (rx : option RegexPattern) (entry : Z * pystr) (risks : list Risk) :
  format_license_code_page scopes cfg kws rx entry = Ok risks →
  (length risks ≤ 1)%nat ∧ Forall (well_formed_finding format_risk_types) risks.
Proof.
  destruct entry as [page raw]. unfold format_license_code_page. intros Hrun.
  inv_bind Hrun.
  eapply label_risk_shape; [| |exact Hrun]; [done | right; right; right; left].
Qed.

Lemma for_each_length {A B} (body : A → result (list B)) (k : nat) (l : list A)
    (acc out : list B) :
  (∀ a part, body a = Ok part → (length part ≤ k)%nat) →
  for_each body l acc = Ok out → (length out ≤ length acc + k * length l)%nat.
Proof.
  intros Hbody (parts & Hparts & ->)%for_each_Ok. rewrite length_app.
  apply Nat.add_le_mono_l. clear acc.
  induction Hparts as [|a part l parts Ha _ IH]; simpl; [lia|].
  rewrite length_app. specialize (Hbody _ _ Ha). lia.
Qed.

Lemma rule_format_shape (scopes : Scopes) (cfg : value)
    (regexes : list (pystr * RegexPattern)) (risks : list Risk) :
  rule_format scopes cfg regexes = Ok risks →
  (length risks ≤ 5 * length (page_text_raw scopes))%nat
  ∧ Forall (well_formed_finding format_risk_types) risks.
Proof.
  unfold rule_format. intros Hrun.
  apply bind_Ok in Hrun as (r1 & H1 & Hrun).
  apply bind_Ok in Hrun as (kws_net & _ & Hrun).
  apply bind_Ok in Hrun as (r2 & H2 & Hrun).
  apply bind_Ok in Hrun as (kws_std & _ & Hrun).
  apply bind_Ok in Hrun as (r3 & H3 & Hrun).
  apply bind_Ok in Hrun as (kws_lic & _ & Hrun).
  apply bind_Ok in Hrun as (r4 & H4 & Hrun). injection Hrun as <-. split.
  - apply (for_each_length _ 2) in H1;
      [|intros a part Ha; by apply format_unit_case_page_shape in Ha as [? ?]].
    apply (for_each_length _ 1) in H2;
      [|intros a part Ha; by apply format_net_content_page_shape in Ha as [? ?]].
    apply (for_each_length _ 1) in H3;
      [|intros a part Ha; by apply format_standard_code_page_shape in Ha as [? ?]].
    apply (for_each_length _ 1) in H4;
      [|intros a part Ha; by apply format_license_code_page_shape in Ha as [? ?]].
    simpl in H1. lia.
  - eapply for_each_Forall in H1;
      [|intros a part _ Ha; by apply format_unit_case_page_shape in Ha as [? ?] | done].
    eapply for_each_Forall in H2;
      [|intros a part _ Ha; by apply format_net_content_page_shape in Ha as [? ?] | done].
    eapply for_each_Forall in H3;
      [|intros a part _ Ha; by apply format_standard_code_page_shape in Ha as [? ?] | done].
    eapply for_each_Forall in H4;
      [|intros a part _ Ha; by apply format_license_code_page_shape in Ha as [? ?] | done].
    done.
Qed.

Lemma keywords_nonempty (cfg : value) (intent_name : pystr) (kws : list pystr) :
  get_intent_keywords cfg intent_name = Ok kws → Forall (λ kw, kw ≠ []) kws.
Proof.
  unfold get_intent_keywords. intros Hrun.
  apply bind_Ok in Hrun as (i & _ & Hrun). apply bind_Ok in Hrun as (e & _ & Hrun).
  apply bind_Ok in Hrun as (k & _ & Hrun). apply bind_Ok in Hrun as (entries & _ & Hrun).
  apply bind_Ok in Hrun as (strs & _ & Hrun). injection Hrun as <-. apply Forall_forall.
  intros kw [Hkw _]%list_elem_of_filter. by intros ->.
Qed.

Lemma weak_scan_shape (blocks : list Block) (kws_weak kws_producer : list pystr)
    (cfg : value) (prod_min : Z) (risks : list Risk) :
  Forall (λ kw, kw ≠ []) kws_weak →
  weak_scan blocks kws_weak kws_producer cfg prod_min [] = Ok risks →
  (length risks ≤ 1)%nat ∧ Forall (well_formed_finding relationship_risk_types) risks.
Proof.
  intros Hweak. induction blocks as [|b blocks IH]; simpl; intros Hrun.
  { no_finding Hrun. }
  apply bind_Ok in Hrun as (b_norm & _ & Hrun).
  apply bind_Ok in Hrun as (has_weak & _ & Hrun).
  destruct has_weak; [|by apply IH].
  apply bind_Ok in Hrun as (hits & _ & Hrun).
  destruct (bool_decide _); [|by apply IH].
  apply bind_Ok in Hrun as (snippet & Hsn & Hrun). injection Hrun as <-.
  split; [simpl; lia|]. constructor; [|done].
  split_and!; [right; left | done |]. simpl.
  destruct (opt_truthy _) eqn:Htruthy.
  - injection Hsn as <-. by apply opt_truthy_default.
  - destruct kws_weak as [|kw0 kws]; [done|]. injection Hsn as <-.
    by apply Forall_cons in Hweak as [? _].
Qed.

Lemma rule_relationship_shape (scopes : Scopes) (cfg : value)
    (regexes : list (pystr * RegexPattern)) (risks : list Risk) :
  rule_relationship scopes cfg regexes = Ok risks →
  (length risks ≤ 1)%nat
  ∧ Forall (well_formed_finding relationship_risk_types) risks
  ∧ (∀ global_norm kws_principal,
       normalize_for_match (global_text_raw scopes) cfg = Ok global_norm →
       get_intent_keywords cfg (py "principal_party_intent") = Ok kws_principal →
       intent_match_any global_norm kws_principal cfg = Ok true → risks = []).
Proof.
  unfold rule_relationship. intros Hrun.
  apply bind_Ok in Hrun as (global_norm & Hnorm & Hrun).
  apply bind_Ok in Hrun as (kws_principal & Hprincipal & Hrun).
  apply bind_Ok in Hrun as (kws_strong & Hstrong%keywords_nonempty & Hrun).
  apply bind_Ok in Hrun as (kws_weak & Hweak%keywords_nonempty & Hrun).
  apply bind_Ok in Hrun as (kws_producer & _ & Hrun).
  apply bind_Ok in Hrun as (has_principal & Hhas & Hrun).
  apply bind_Ok in Hrun as (has_strong & _ & Hrun).
  assert (∀ gn kp, normalize_for_match (global_text_raw scopes) cfg = Ok gn →
            get_intent_keywords cfg (py "principal_party_intent") = Ok kp →
            intent_match_any gn kp cfg = Ok true → has_principal = true) as Hp.
  { intros gn kp Hgn Hkp Hm. congruence. }
  destruct has_principal.
  { rewrite !andb_false_r in Hrun. injection Hrun as <-.
    split_and!; [simpl; lia | constructor | done]. }
  match goal with
  | |- ?A ∧ ?B ∧ _ =>
      enough (A ∧ B) as [? ?];
        [split_and!; [done..|intros gn kp Hgn Hkp Hm; by specialize (Hp _ _ Hgn Hkp Hm)]|]
  end.
  destruct has_strong; simpl in Hrun.
  - destruct (pick_first_keyword_evidence_in_blocks _ _ _) as [sn bid] eqn:Hpick.
    injection Hrun as <-. split; [simpl; lia|].
    constructor; [|done]. split_and!; [left | done |]. simpl.
    destruct kws_strong as [|kw0 kws]; [done|].
    destruct (opt_truthy sn) eqn:Hsn; [by apply opt_truthy_default|].
    by apply Forall_cons in Hstrong as [? _].
  - repeat (apply bind_Ok in Hrun as (? & _ & Hrun)).
    destruct (_ && _); [|no_finding Hrun].
    by eapply weak_scan_shape.
Qed.

End Families.

(** X19. The format family reports at most five findings per page (two from
    the unit-casing rule, one from each of the three label rules), and each
    finding carries a format risk type, the fixed detection method and a
    snippet that is not empty. *)
Theorem format_findings_bounded_well_formed {RT : PyRuntime} (scopes : Scopes)
    (cfg : value) (regexes : list (pystr * RegexPattern)) (risks : list Risk) :
  rule_format scopes cfg regexes = Ok risks →
  (length risks ≤ 5 * length (page_text_raw scopes))%nat
  ∧ Forall (well_formed_finding format_risk_types) risks.
Proof. apply rule_format_shape. Qed.

Lemma format_findings_bounded_well_formed_witness :
  ∃ risks, rule_format (RT := ascii_runtime) (build_scopes [] back_first_blocks)
             cfg_net_labels [] = Ok risks
           ∧ length risks = 2%nat
           ∧ Forall (well_formed_finding format_risk_types) risks.
Proof.
  destruct (rule_format (RT := ascii_runtime) (build_scopes [] back_first_blocks)
              cfg_net_labels []) as [risks|e] eqn:Hrun; [|vm_compute in Hrun; discriminate].
  exists risks. split; [reflexivity|]. split.
  - vm_compute in Hrun. by injection Hrun as <-.
  - exact (proj2 (format_findings_bounded_well_formed (RT := ascii_runtime) _ _ _ _ Hrun)).
Defined.

(** X20. The relationship family reports at most one finding; it carries a
    relationship risk type, the fixed detection method and a snippet that is
    not empty; and when a principal-party keyword matches the document the
    family reports nothing. *)
Theorem relationship_at_most_one_finding {RT : PyRuntime} (scopes : Scopes)
    (cfg : value) (regexes : list (pystr * RegexPattern)) (risks : list Risk) :
  rule_relationship scopes cfg regexes = Ok risks →
  (length risks ≤ 1)%nat
  ∧ Forall (well_formed_finding relationship_risk_types) risks
  ∧ (∀ global_norm kws_principal,
       normalize_for_match (global_text_raw scopes) cfg = Ok global_norm →
       get_intent_keywords cfg (py "principal_party_intent") = Ok kws_principal →
       intent_match_any global_norm kws_principal cfg = Ok true → risks = []).
Proof. apply rule_relationship_shape. Qed.

Lemma relationship_at_most_one_finding_witness :
  ∃ risks, rule_relationship (RT := ascii_runtime) (build_scopes [] entrust_blocks)
             cfg_entrust [] = Ok risks
           ∧ length risks = 1%nat
           ∧ Forall (well_formed_finding relationship_risk_types) risks.
Proof.
  destruct (rule_relationship (RT := ascii_runtime) (build_scopes [] entrust_blocks)
              cfg_entrust []) as [risks|e] eqn:Hrun; [|vm_compute in Hrun; discriminate].
  exists risks. split; [reflexivity|]. split.
  - vm_compute in Hrun. by injection Hrun as <-.
  - exact (proj1 (proj2 (relationship_at_most_one_finding (RT := ascii_runtime)
                           _ _ _ _ Hrun))).
Defined.

(** ** Deduplication and the whole run *)

Lemma filter_all {A} (P : A → Prop) `{∀ x, Decision (P x)} (l : list A) :
  Forall P l → filter P l = l.
Proof.
  induction 1 as [|x l Hx _ IH]; [done|]. rewrite filter_cons_True by done. by f_equal.
Qed.

Lemma keep_first_NoDup_id (risks : list Risk) :
  NoDup (dedup_key <$> risks) → keep_first_per_key risks = risks.
Proof.
  induction risks as [|r risks IH]; simpl; [done|].
  intros [Hr Hrisks]%NoDup_cons. f_equal. rewrite IH by done.
  apply filter_all, Forall_forall. intros r' Hr' Heq. apply Hr.
  rewrite <- Heq. by apply list_elem_of_fmap_2.
Qed.

Lemma keep_first_app (l1 l2 : list Risk) :
  keep_first_per_key (l1 ++ l2)
  = keep_first_per_key l1
    ++ filter (λ r, dedup_key r ∉ dedup_key <$> l1) (keep_first_per_key l2).
Proof.
  induction l1 as [|r l1 IH]; simpl.
  - symmetry. apply filter_all, Forall_forall. intros r _. apply not_elem_of_nil.
  - f_equal. rewrite IH, filter_app. f_equal.
    rewrite list_filter_filter. apply list_filter_iff. intros r'.
    rewrite not_elem_of_cons. tauto.
Qed.

(** X21. Deduplicating leaves a list whose dedup keys are pairwise distinct
    unchanged, so deduplicating twice is the same as deduplicating once; and
    it never lengthens the list. *)
Theorem deduplicate_idempotent (risks : list Risk) :
  (NoDup (dedup_key <$> risks) → deduplicate risks = risks)
  ∧ deduplicate (deduplicate risks) = deduplicate risks
  ∧ (length (deduplicate risks) ≤ length risks)%nat.
Proof.
  rewrite !deduplicate_keep_first. split_and!.
  - apply keep_first_NoDup_id.
  - apply keep_first_NoDup_id, keep_first_NoDup.
  - apply sublist_length, keep_first_sublist.
Qed.

Lemma dedup_key_head (r : Risk) :
  risk_type r ≠ [] → head (dedup_key r) = head (risk_type r).
Proof.
  unfold dedup_key. intros Hrt. case_bool_decide; [done|]. by destruct (risk_type r).
Qed.

Lemma missing_keys_head : Forall (λ r, head (dedup_key r) = Some 109%N) all_missing.
Proof. repeat constructor. Qed.

Lemma missing_keys_NoDup : NoDup (dedup_key <$> all_missing).
Proof. exact (bool_decide_unpack (NoDup (dedup_key <$> all_missing)) I). Qed.

Lemma other_types_head :
  Forall (λ t, t ≠ [] ∧ head t ≠ Some 109%N) (format_risk_types ++ relationship_risk_types).
Proof. repeat constructor; discriminate. Qed.

Lemma well_formed_finding_mono (types types' : list pystr) (r : Risk) :
  types ⊆ types' → well_formed_finding types r → well_formed_finding types' r.
Proof. intros Hsub (Hty & Hm & Hsn). split_and!; [by apply Hsub | done..]. Qed.

Lemma missing_well_formed : Forall (well_formed_finding missing_risk_types) all_missing.
Proof.
  apply Forall_forall. intros r Hr. split_and!.
  - by apply list_elem_of_fmap_2.
  - revert r Hr. apply Forall_forall. by repeat constructor.
  - revert r Hr. apply Forall_forall. by repeat constructor.
Qed.

Section Run.
Context {RT : PyRuntime}.

(** The findings of the format and relationship families never share a
    dedup key with a missing-field finding. *)
Lemma deduplicate_missing_first (missing rest : list Risk) :
  sublist missing all_missing →
  Forall (well_formed_finding (format_risk_types ++ relationship_risk_types)) rest →
  deduplicate (missing ++ rest) = missing ++ deduplicate rest.
Proof.
  intros Hsub Hrest. rewrite !deduplicate_keep_first, keep_first_app. f_equal.
  - apply keep_first_NoDup_id. apply (sublist_NoDup _ (dedup_key <$> all_missing));
      [apply missing_keys_NoDup | by apply fmap_sublist].
  - apply filter_all, Forall_forall. intros r Hr.
    eapply elem_of_sublist in Hr; [|apply keep_first_sublist].
    intros (m & Hkey & Hm)%list_elem_of_fmap.
    eapply elem_of_sublist in Hm; [|exact Hsub].
    pose proof (proj1 (Forall_forall _ _) missing_keys_head _ Hm) as Hhead.
    pose proof (proj1 (Forall_forall _ _) Hrest _ Hr) as (Hty & _ & _).
    pose proof (proj1 (Forall_forall _ _) other_types_head _ Hty) as [Hne Hother].
    apply Hother. by rewrite <- dedup_key_head, Hkey.
Qed.

Lemma run_engine_parts (doc cfg : value) (out : EngineOutput) :
  run_engine doc cfg = Ok out →
  ∃ lines blocks regexes missing format relationship,
    load_block_extractor_output doc = Ok (lines, blocks)
    ∧ compile_regexes cfg = Ok regexes
    ∧ rule_missing (build_scopes lines blocks) cfg regexes = Ok missing
    ∧ rule_format (build_scopes lines blocks) cfg regexes = Ok format
    ∧ rule_relationship (build_scopes lines blocks) cfg regexes = Ok relationship
    ∧ risk_list out = missing ++ deduplicate (format ++ relationship).
Proof.
  unfold run_engine. intros Hrun.
  apply bind_Ok in Hrun as ([lines blocks] & Hload & Hrun).
  apply bind_Ok in Hrun as (regexes & Hrx & Hrun).
  apply bind_Ok in Hrun as (missing & Hmissing & Hrun).
  apply bind_Ok in Hrun as (format & Hformat & Hrun).
  apply bind_Ok in Hrun as (relationship & Hrel & Hrun).
  apply bind_Ok in Hrun as (dv & _ & Hrun).
  apply bind_Ok in Hrun as (dvs & _ & Hrun). injection Hrun as <-.
  exists lines, blocks, regexes, missing, format, relationship.
  split_and!; [done..|]. simpl. rewrite <- app_assoc.
  apply deduplicate_missing_first; [by eapply rule_missing_sublist|].
  apply Forall_app. split.
  - apply rule_format_shape in Hformat as [_ Hformat].
    eapply Forall_impl; [exact Hformat|]. intros r.
    apply well_formed_finding_mono. set_solver.
  - apply rule_relationship_shape in Hrel as (_ & Hrel & _).
    eapply Forall_impl; [exact Hrel|]. intros r.
    apply well_formed_finding_mono. set_solver.
Qed.

Lemma page_count_le_blocks (lines : list Line) (bs : list Block) :
  (length (page_text_raw (build_scopes lines bs)) ≤ length bs)%nat.
Proof.
  simpl. rewrite <- (length_fmap fst), page_text_keys. simpl.
  etrans; [apply sublist_length, sublist_filter|].
  rewrite <- (length_fmap source_page bs).
  generalize (source_page <$> bs) as pages. intros pages.
  induction pages as [|p pages IH]; simpl; [done|].
  apply le_n_S. etrans; [apply sublist_length, sublist_filter | done].
Qed.

End Run.

(** X22. Deduplication never removes or moves a missing-field finding: the
    final risk list is the missing-field findings, in production order,
    followed by the deduplicated findings of the format and relationship
    families. *)
Theorem missing_findings_survive_deduplication {RT : PyRuntime} (doc cfg : value)
    (out : EngineOutput) :
  run_engine doc cfg = Ok out →
  ∃ lines blocks regexes missing format relationship,
    load_block_extractor_output doc = Ok (lines, blocks)
    ∧ compile_regexes cfg = Ok regexes
    ∧ rule_missing (build_scopes lines blocks) cfg regexes = Ok missing
    ∧ rule_format (build_scopes lines blocks) cfg regexes = Ok format
    ∧ rule_relationship (build_scopes lines blocks) cfg regexes = Ok relationship
    ∧ risk_list out = missing ++ deduplicate (format ++ relationship).
Proof. apply run_engine_parts. Qed.

Lemma missing_findings_survive_deduplication_witness :
  ∃ out missing rest,
    run_engine (RT := ascii_runtime) doc_entrust cfg_entrust = Ok out
    ∧ risk_list out = missing ++ deduplicate rest
    ∧ length missing = 5%nat ∧ length rest = 2%nat.
Proof.
  destruct (run_engine (RT := ascii_runtime) doc_entrust cfg_entrust) as [out|e] eqn:Hrun;
    [|vm_compute in Hrun; discriminate].
  destruct (missing_findings_survive_deduplication (RT := ascii_runtime) _ _ _ Hrun)
    as (lines & blocks & regexes & missing & format & relationship
        & Hload & Hrx & Hmissing & Hformat & Hrel & Hout).
  exists out, missing, (format ++ relationship). split; [reflexivity|]. split; [exact Hout|].
  vm_compute in Hload. injection Hload as <- <-.
  vm_compute in Hrx. injection Hrx as <-.
  vm_compute in Hmissing. injection Hmissing as <-.
  vm_compute in Hformat. injection Hformat as <-.
  vm_compute in Hrel. injection Hrel as <-. split; reflexivity.
Defined.

(** X23. Every finding of a completed run carries one of the thirteen known
    risk types, the fixed detection method and a snippet that is not empty,
    and a document of n blocks yields at most 8 + 5 n findings. *)
Theorem final_findings_well_formed {RT : PyRuntime} (doc cfg : value)
    (out : EngineOutput) (lines : list Line) (blocks : list Block) :
  run_engine doc cfg = Ok out →
  load_block_extractor_output doc = Ok (lines, blocks) →
  Forall (well_formed_finding
            (missing_risk_types ++ format_risk_types ++ relationship_risk_types))
         (risk_list out)
  ∧ (length (risk_list out) ≤ 8 + 5 * length blocks)%nat.
Proof.
  intros (lines' & blocks' & regexes & missing & format & relationship
          & Hload' & _ & Hmissing & Hformat & Hrel & ->)%run_engine_parts Hload.
  rewrite Hload in Hload'. injection Hload' as <- <-.
  apply rule_missing_sublist in Hmissing.
  apply rule_format_shape in Hformat as [Hflen Hformat].
  apply rule_relationship_shape in Hrel as (Hrlen & Hrel & _).
  pose proof (keep_first_sublist (format ++ relationship)) as Hdedup.
  rewrite <- deduplicate_keep_first in Hdedup. split.
  - apply Forall_app. split.
    + apply Forall_forall. intros r Hr. eapply elem_of_sublist in Hr; [|exact Hmissing].
      eapply well_formed_finding_mono;
        [|exact (proj1 (Forall_forall _ _) missing_well_formed _ Hr)].
      set_solver.
    + apply Forall_forall. intros r Hr. eapply elem_of_sublist in Hr; [|exact Hdedup].
      apply elem_of_app in Hr as [Hr|Hr].
      * eapply well_formed_finding_mono;
          [|exact (proj1 (Forall_forall _ _) Hformat _ Hr)].
        set_solver.
      * eapply well_formed_finding_mono;
          [|exact (proj1 (Forall_forall _ _) Hrel _ Hr)].
        set_solver.
  - rewrite length_app. apply sublist_length in Hmissing, Hdedup.
    rewrite length_app in Hdedup. pose proof (page_count_le_blocks lines blocks).
    change (length all_missing) with 7%nat in Hmissing. lia.
Qed.

Lemma final_findings_well_formed_witness :
  ∃ out, run_engine (RT := ascii_runtime) doc_entrust cfg_entrust = Ok out
         ∧ length (risk_list out) = 7%nat
         ∧ Forall (well_formed_finding
                     (missing_risk_types ++ format_risk_types ++ relationship_risk_types))
                  (risk_list out).
Proof.
  destruct (run_engine (RT := ascii_runtime) doc_entrust cfg_entrust) as [out|e] eqn:Hrun;
    [|vm_compute in Hrun; discriminate].
  destruct (load_block_extractor_output (RT := ascii_runtime) doc_entrust) as [[lines blocks]|e] eqn:Hload;
    [|vm_compute in Hload; discriminate].
  exists out. split; [reflexivity|]. split.
  - vm_compute in Hrun. by injection Hrun as <-.
  - exact (proj1 (final_findings_well_formed (RT := ascii_runtime) _ _ _ _ _ Hrun Hload)).
Defined.
